(** * FIDEScraper: a shallow embedding of [scrapefide.py]

    The development follows the source file top-down: Python values and
    exceptions, binary64 arithmetic (on the Standard Library's [SpecFloat]),
    the performance table, [get_rating_urls], [calc_performance],
    [scrape_rating_reports], [write_to_csv] and [main].  Python semantics
    are those of CPython 3; the network, the file system, the clock and
    the time zone are inputs. *)

From Stdlib Require Import ZArith List Bool Lia Ascii String DecimalString.
From Stdlib Require Import DecimalPos DecimalZ.
From Stdlib Require Import Floats.SpecFloat.
Import ListNotations.
Open Scope Z_scope.

Set Implicit Arguments.

(** ** Python values *)

(** A [str] is a sequence of code points. *)
Definition pystr := list N.

Definition pstr (s : string) : pystr := map N_of_ascii (list_ascii_of_string s).
Arguments pstr s%_string.

Definition str_eqb (a b : pystr) : bool :=
  if list_eq_dec N.eq_dec a b then true else false.

(** The numbers the program handles: [int] (unbounded) and [float] (binary64). *)
Inductive pynum :=
| PyInt (z : Z)
| PyFloat (f : spec_float).

(** The exceptions that can leave the functions below. *)
Inductive exn :=
| TypeError                       (* unsupported operand type(s) *)
| RuntimeError (msg : pystr)
| UnpackTooFew (expected got : nat)   (* ValueError: not enough values to unpack *)
| UnpackTooMany (expected : nat)      (* ValueError: too many values to unpack *)
| ValueError                      (* int() / float() on a malformed literal *)
| ZeroDivisionError
| OverflowError
| KeyError (key : spec_float)
| IndexError
| TransportError                  (* anything raised by the HTTP session *)
| OSError.                        (* what [open] and the file object raise *)

(** Fallible pure code: [Raise e] or [Return a]. *)
Inductive result (A : Type) :=
| Raise (e : exn)
| Return (a : A).
Arguments Raise {A} e.
Arguments Return {A} a.

Definition rbind {A B} (r : result A) (k : A -> result B) : result B :=
  match r with
  | Raise e => Raise e
  | Return a => k a
  end.

Declare Scope res_scope.
Delimit Scope res_scope with res.
Notation "x <- r ;; k" := (rbind r (fun x => k))
  (at level 61, r at next level, right associativity) : res_scope.

(** ** Binary64 arithmetic *)

Module F64.

Definition prec : Z := 53.
Definition emax : Z := 1024.

Definition div : spec_float -> spec_float -> spec_float := SFdiv prec emax.
Definition sub : spec_float -> spec_float -> spec_float := SFsub prec emax.

(** The double nearest to [(-1)^s * p / q] (ties to even): what a decimal
    literal denotes, and what [strtod] returns. *)
Definition nearest (s : bool) (p q : positive) : spec_float :=
  let '(mz, ez, lz) := SFdiv_core_binary prec emax (Zpos p) 0 (Zpos q) 0 in
  binary_round_aux prec emax s mz ez lz.

(** [float(n)] for an [int]; CPython raises [OverflowError] when the
    rounded value does not fit. *)
Definition of_int (n : Z) : result spec_float :=
  match binary_normalize prec emax n 0 false with
  | S754_finite s m e => Return (S754_finite s m e)
  | S754_zero s => Return (S754_zero s)
  | _ => Raise OverflowError
  end.

(** [x == n] for a float [x] and an int [n]: exact comparison. *)
Definition eqb_int (x : spec_float) (n : Z) : bool :=
  match x with
  | S754_zero _ => n =? 0
  | S754_finite s m e =>
      match e with
      | Zneg k => cond_Zopp s (Zpos m) =? n * 2 ^ Zpos k
      | _ => cond_Zopp s (Zpos m * 2 ^ e) =? n
      end
  | _ => false
  end.

(** [x <= n] for a float [x] and an int [n], exact; false on NaN. *)
Definition leb_int (x : spec_float) (n : Z) : bool :=
  match x with
  | S754_zero _ => 0 <=? n
  | S754_finite s m e =>
      match e with
      | Zneg k => cond_Zopp s (Zpos m) <=? n * 2 ^ Zpos k
      | _ => cond_Zopp s (Zpos m * 2 ^ e) <=? n
      end
  | S754_infinity s => s
  | S754_nan => false
  end.

End F64.

(** [round(x, ndigits)] on a float, for [ndigits >= 0] (CPython's
    [float.__round__]): the exact value of [x] is rounded to [ndigits]
    decimals, ties to even, and the decimal obtained is converted back to
    the nearest double; the sign is kept, NaN and infinities are returned
    unchanged. *)
Definition round_half_even (n d : Z) : Z :=
  let q := n / d in
  match 2 * (n mod d) ?= d with
  | Lt => q
  | Gt => q + 1
  | Eq => if Z.even q then q else q + 1
  end.

Definition py_round (x : spec_float) (ndigits : N) : spec_float :=
  if (323 <? ndigits)%N then x else
  match x with
  | S754_finite s m e =>
      let scale := 10 ^ Z.of_N ndigits in
      let h := match e with
               | Zneg k => round_half_even (Zpos m * scale) (2 ^ Zpos k)
               | _ => Zpos m * 2 ^ e * scale
               end in
      match h with
      | Zpos p => F64.nearest s p (Z.to_pos scale)
      | _ => S754_zero s
      end
  | _ => x
  end.

(** [a / b] for a float [a] and an int [b] ([float.__truediv__]). *)
Definition truediv (a : spec_float) (b : Z) : result spec_float :=
  (b' <- F64.of_int b ;;
   match b' with
   | S754_zero _ => Raise ZeroDivisionError
   | _ => Return (F64.div a b')
   end)%res.

(** ** Strings *)

(** [s.replace(old, new)] for a non-empty [old]: leftmost, non-overlapping
    occurrences. [skip] counts the characters of a match still to drop. *)
Fixpoint is_prefix (p s : pystr) : bool :=
  match p, s with
  | [], _ => true
  | _ :: _, [] => false
  | a :: p', b :: s' => (a =? b)%N && is_prefix p' s'
  end.

Fixpoint replace_from (old new : pystr) (skip : nat) (s : pystr) : pystr :=
  match s with
  | [] => []
  | c :: s' =>
      match skip with
      | S k => replace_from old new k s'
      | O =>
          if is_prefix old s
          then new ++ replace_from old new (List.length old - 1) s'
          else c :: replace_from old new 0 s'
      end
  end.

Definition replace (s old new : pystr) : pystr := replace_from old new 0 s.

(** [s[:-1]] *)
Definition drop_last (s : pystr) : pystr := removelast s.

(** ** Decimal literals

    [dec_int] and [dec_float] read the plain decimal notations
    [[+-]digits] and [[+-]digits[.digits]]; on these they agree with
    CPython's [int()] and [float()].  They give the float literals of the
    source their value and instantiate the coercions in the examples. *)

Definition digit_of (c : N) : option Z :=
  if ((48 <=? c) && (c <=? 57))%N then Some (Z.of_N c - 48) else None.

(** Reads a maximal run of digits: value, number of digits, rest. *)
Fixpoint read_digits (s : pystr) (acc : Z) (n : nat) : Z * nat * pystr :=
  match s with
  | [] => (acc, n, [])
  | c :: s' =>
      match digit_of c with
      | Some d => read_digits s' (10 * acc + d) (S n)
      | None => (acc, n, s)
      end
  end.

Definition read_sign (s : pystr) : bool * pystr :=
  match s with
  | 45%N :: s' => (true, s')
  | 43%N :: s' => (false, s')
  | _ => (false, s)
  end.

Definition dec_int (s : pystr) : result Z :=
  let '(neg, s1) := read_sign s in
  match read_digits s1 0 0 with
  | (v, S _, []) => Return (cond_Zopp neg v)
  | _ => Raise ValueError
  end.

Definition dec_float (s : pystr) : result spec_float :=
  let '(neg, s1) := read_sign s in
  let '(ip, ni, s2) := read_digits s1 0 0 in
  let '(mant, nf, s3) :=
    match s2 with
    | 46%N :: s2' => read_digits s2' ip 0
    | _ => (ip, O, s2)
    end in
  match s3, (ni + nf)%nat with
  | [], S _ =>
      match mant with
      | Zpos p => Return (F64.nearest neg p (Z.to_pos (10 ^ Z.of_nat nf)))
      | _ => Return (S754_zero neg)
      end
  | _, _ => Raise ValueError
  end.

Definition float_lit (s : string) : spec_float :=
  match dec_float (pstr s) with
  | Return f => f
  | Raise _ => S754_nan
  end.

Definition flt (s : string) : pynum := PyFloat (float_lit s).
Arguments float_lit s%_string.
Arguments flt s%_string.

(** ** Module constants *)

(** Mapping between p and dP, taken from the FIDE Handbook; a [dict] with
    float keys and one [int] key, in source order. *)
Definition PERFORMANCE_TABLE : list (pynum * Z) :=
  [ (flt "1.0", 800); (flt "0.99", 677); (flt "0.98", 589);
    (flt "0.97", 538); (flt "0.96", 501); (flt "0.95", 470);
    (flt "0.94", 444); (flt "0.93", 422); (flt "0.92", 401);
    (flt "0.91", 383); (flt "0.9", 366); (flt "0.89", 351);
    (flt "0.88", 336); (flt "0.87", 322); (flt "0.86", 309);
    (flt "0.85", 296); (flt "0.84", 284); (flt "0.83", 273);
    (flt "0.82", 262); (flt "0.81", 251); (flt "0.8", 240);
    (flt "0.79", 230); (flt "0.78", 220); (flt "0.77", 211);
    (flt "0.76", 202); (flt "0.75", 193); (flt "0.74", 184);
    (flt "0.73", 175); (flt "0.72", 166); (flt "0.71", 158);
    (flt "0.70", 149); (flt "0.69", 141); (flt "0.68", 133);
    (flt "0.67", 125); (flt "0.66", 117); (flt "0.65", 110);
    (flt "0.64", 102); (flt "0.63", 95); (flt "0.62", 87); (flt "0.61", 80);
    (flt "0.6", 72); (flt "0.59", 65); (flt "0.58", 57); (flt "0.57", 50);
    (flt "0.56", 43); (flt "0.55", 36); (flt "0.54", 29); (flt "0.53", 21);
    (flt "0.52", 14); (flt "0.51", 7); (flt "0.5", 0); (flt "0.49", (-7));
    (flt "0.48", (-14)); (flt "0.47", (-21)); (flt "0.46", (-29));
    (flt "0.45", (-36)); (flt "0.44", (-43)); (flt "0.43", (-50));
    (flt "0.42", (-57)); (flt "0.41", (-65)); (flt "0.4", (-72));
    (flt "0.39", (-80)); (flt "0.38", (-87)); (flt "0.37", (-95));
    (flt "0.36", (-102)); (flt "0.35", (-110)); (flt "0.34", (-117));
    (flt "0.33", (-125)); (flt "0.32", (-133)); (flt "0.31", (-141));
    (flt "0.3", (-149)); (flt "0.29", (-158)); (flt "0.28", (-166));
    (flt "0.27", (-175)); (flt "0.26", (-184)); (flt "0.25", (-193));
    (flt "0.24", (-202)); (flt "0.23", (-211)); (flt "0.22", (-220));
    (flt "0.21", (-230)); (flt "0.2", (-240)); (flt "0.19", (-251));
    (flt "0.18", (-262)); (flt "0.17", (-273)); (flt "0.16", (-284));
    (flt "0.15", (-296)); (flt "0.14", (-309)); (flt "0.13", (-322));
    (flt "0.12", (-336)); (flt "0.11", (-351)); (flt "0.1", (-366));
    (flt "0.09", (-383)); (flt "0.08", (-401)); (flt "0.07", (-422));
    (flt "0.06", (-444)); (flt "0.05", (-470)); (flt "0.04", (-501));
    (flt "0.03", (-538)); (flt "0.02", (-589)); (flt "0.01", (-677));
    (PyInt 0, (-800)) ].

Definition TRN_NAME_COLOR : pystr := pstr "#CC9966".
Definition TRN_SCORE_COLOR : pystr := pstr "#e6e6e6".
Definition NO_RECORDS_STRING : pystr :=
  pstr "No records found in individual calculations for this period.".

Definition LOGIN_URL : pystr := pstr "https://ratings.fide.com/login_action.php".

(** [d[x]] for a float [x]: the value of the key equal to [x] ([==]; the
    hashes of equal numbers agree), [KeyError] when there is none. *)
Definition key_eqb (x : spec_float) (k : pynum) : bool :=
  match k with
  | PyInt n => F64.eqb_int x n
  | PyFloat f => SFeqb x f
  end.

Fixpoint lookup (d : list (pynum * Z)) (x : spec_float) : option Z :=
  match d with
  | [] => None
  | (k, v) :: d' => if key_eqb x k then Some v else lookup d' x
  end.

Definition getitem (d : list (pynum * Z)) (x : spec_float) : result Z :=
  match lookup d x with
  | Some v => Return v
  | None => Raise (KeyError x)
  end.

(** ** [calc_performance] *)

(** [a / b] for two ints ([int.__truediv__]): a zero divisor is refused
    first, then the quotient is rounded once, to the nearest double;
    [OverflowError] when it is too large for a float. *)
Definition int_truediv (a b : Z) : result spec_float :=
  if b =? 0 then Raise ZeroDivisionError else
  let negate := xorb (a <? 0) (b <? 0) in
  match Z.abs a with
  | Zpos p =>
      match F64.nearest negate p (Z.to_pos (Z.abs b)) with
      | S754_infinity _ => Raise OverflowError
      | q => Return q
      end
  | _ => Return (S754_zero negate)
  end.

(** [pts / rds], for [pts] an int or a float and [rds] an int. *)
Definition truediv_num (pts : pynum) (rds : Z) : result spec_float :=
  match pts with
  | PyInt n => int_truediv n rds
  | PyFloat f => truediv f rds
  end.

Definition calc_performance (avg : Z) (pts : pynum) (rds : Z) : result Z :=
  (q <- truediv_num pts rds ;;
   let score := py_round q 2 in
   off <- getitem PERFORMANCE_TABLE score ;;
   let perf := avg + off in
   Return perf)%res.

(** [round(pts / rds, 2)] as [calc_performance] computes it. *)
Definition score (pts : pynum) (rds : Z) : result spec_float :=
  (q <- truediv_num pts rds ;;
   Return (py_round q 2))%res.

(** ** [get_rating_urls] *)

(** The C library's normalisation of a month outside 1..12 into the
    neighbouring years. *)
Definition normalise (y m : Z) : Z * Z :=
  (y + (m - 1) / 12, (m - 1) mod 12 + 1).

(** The local time zone, as far as [mktime] and [localtime] consult it
    here: [tz y m] is the number of seconds from midnight of the first of
    month [m] (1..12) of year [y] to the local time that [localtime]
    reports for the instant [mktime] returns for that midnight read with
    [tm_isdst = 0], that is, by how much the local clock is then ahead of
    the zone's standard time.  It is 0 where no daylight-saving rule is in
    force on that day, 3600 during a summer time, and -3600 during the
    winter time of a zone whose standard time is its summer time
    (Europe/Dublin in the tz database).  No zone shifts its clock by as
    much as 28 days. *)
Definition zone : Type := Z -> Z -> Z.

(** [time.localtime(time.mktime((y, m, 1, 0, 0, 0, 0, 0, 0)))[:2]]: the
    month is normalised; the last field, [tm_isdst = 0], makes [mktime]
    read midnight of the first as standard time; [localtime] gives that
    instant on the local clock, which falls in the same month when the
    clock is not behind standard time and on the last day of the month
    before when it is. *)
Definition localtime_mktime (tz : zone) (y m : Z) : Z * Z :=
  let '(y1, m1) := normalise y m in
  if tz y1 m1 <? 0 then normalise y1 (m1 - 1) else (y1, m1).

(** [range(n)] *)
Definition range (n : Z) : list Z := map Z.of_nat (seq 0 (Z.to_nat n)).

(** The list comprehension [periods]; [now] is [(tm_year, tm_mon)] of
    [time.localtime()]. *)
Definition periods (tz : zone) (now : Z * Z) (months : Z) : list (Z * Z) :=
  map (fun n => localtime_mktime tz (fst now) (snd now - n)) (range months).

(** [{:d}] and [{:02d}] *)
Definition format_d (n : Z) : pystr := pstr (NilZero.string_of_int (Z.to_int n)).

Definition format_02d (n : Z) : pystr :=
  let digits := format_d (Z.abs n) in
  if n <? 0 then 45%N :: digits
  else if (List.length digits <? 2)%nat then 48%N :: digits else digits.

(** [CALCULATION_URL.format(id=..., year=..., month=...)] *)
Definition CALCULATION_URL (id : pystr) (year month : Z) : pystr :=
  pstr "https://ratings.fide.com/individual_calculations.phtml?idnumber="
  ++ id ++ pstr "&rating_period=" ++ format_d year ++ pstr "-"
  ++ format_02d month ++ pstr "-01&t=0".

Definition get_rating_urls (tz : zone) (player_id : pystr) (now : Z * Z)
           (months : Z) : list pystr :=
  map (fun '(y, m) => CALCULATION_URL player_id y m) (periods tz now months).

(** ** The report page *)

(** A [<tr>] as the scraper sees it: its [bgcolor] attribute and the
    [.text] of each of its children, in order. *)
Record tr := { bgcolor : option pystr; children : list pystr }.

(** A [<table class="contentpaneopen">]: its [.text] and its rows. *)
Record table := { text : pystr; trs : list tr }.

(** [t.findAll('tr', {'bgcolor': color})] *)
Definition findAll_tr (t : table) (color : pystr) : list tr :=
  filter (fun r => match bgcolor r with
                   | Some c => str_eqb c color
                   | None => false
                   end) (trs t).

(** [l[i]] *)
Definition index {A} (l : list A) (i : nat) : result A :=
  match nth_error l i with
  | Some a => Return a
  | None => Raise IndexError
  end.

(** Unpacking a list into a fixed number of targets. *)
Definition unpack_error (expected got : nat) : exn :=
  if (got <? expected)%nat then UnpackTooFew expected got
  else UnpackTooMany expected.

Definition unpack4 (l : list pystr) : result (pystr * pystr * pystr * pystr) :=
  match l with
  | [a; b; c; d] => Return (a, b, c, d)
  | _ => Raise (unpack_error 4 (List.length l))
  end.

Definition unpack8 (l : list pystr)
  : result (pystr * pystr * pystr * pystr * pystr * pystr * pystr * pystr) :=
  match l with
  | [a; b; c; d; e; f; g; h] => Return (a, b, c, d, e, f, g, h)
  | _ => Raise (unpack_error 8 (List.length l))
  end.

(** [x.text.replace(u'\xa0', '')] *)
Definition strip_nbsp (x : pystr) : pystr := replace x [160%N] [].

(** The text of the [k]-th child of a row, as the loop body reads it. *)
Definition cell (r : tr) (k : nat) : pystr := strip_nbsp (nth k (children r) []).

(** The dict [new_tourn], with its nine keys. *)
Record tournament := {
  Rating_Period : pystr;
  Tournament_Name : pystr;
  City : pystr;
  Country : pystr;
  Pts : spec_float;
  Rds : Z;
  Avg_Opponents : Z;
  Rtg_Change : spec_float;
  Performance : Z
}.

(** A value handed to the CSV writer; the writer's own conversion of
    numbers to text is outside the model. *)
Inductive pyval :=
| VStr (s : pystr)
| VInt (z : Z)
| VFloat (f : spec_float).

(** What the run does to the outside, in order. *)
Inductive event :=
| EvPost (url : pystr)
| EvGet (url : pystr)
| EvPrint (line : pystr)
| EvSleep (seconds : Z)
| EvOpen (name : pystr)           (* [open(name, 'w')] *)
| EvWrite (row : list pyval)      (* one row handed to the file *)
| EvClose.                        (* the file is closed *)

(** ** [write_to_csv]: the rows *)

Definition csv_fields : list pystr :=
  [pstr "Rating Period";
   pstr "Tournament Name";
   pstr "City";
   pstr "Country";
   pstr "Pts.";
   pstr "Rds.";
   pstr "Avg. Opponents";
   pstr "Rtg. Change";
   pstr "Performance"].

(** The dict [new_tourn] as the writer receives it: the eight keys of the
    dict display, then ['Performance'], in insertion order. *)
Definition new_tourn_dict (r : tournament) : list (pystr * pyval) :=
  [(pstr "Rating Period", VStr (Rating_Period r));
   (pstr "Tournament Name", VStr (Tournament_Name r));
   (pstr "City", VStr (City r));
   (pstr "Country", VStr (Country r));
   (pstr "Pts.", VFloat (Pts r));
   (pstr "Rds.", VInt (Rds r));
   (pstr "Avg. Opponents", VInt (Avg_Opponents r));
   (pstr "Rtg. Change", VFloat (Rtg_Change r));
   (pstr "Performance", VInt (Performance r))].

(** [rowdict.get(key, restval)] with the default [restval = ''] *)
Fixpoint dict_get (rowdict : list (pystr * pyval)) (key : pystr) : pyval :=
  match rowdict with
  | [] => VStr []
  | (k, v) :: rowdict' => if str_eqb k key then v else dict_get rowdict' key
  end.

(** What [csv.DictWriter.writerow] hands to the underlying writer, with
    the default [extrasaction='raise']: a key outside [fieldnames] is a
    [ValueError]; otherwise one cell per field name, in the order of
    [fieldnames]. *)
Definition dict_to_list (fieldnames : list pystr)
           (rowdict : list (pystr * pyval)) : result (list pyval) :=
  if forallb (fun kv => existsb (str_eqb (fst kv)) fieldnames) rowdict
  then Return (map (dict_get rowdict) fieldnames)
  else Raise ValueError.

(** The row [writer.writeheader()] writes: the field names themselves. *)
Definition header_cells (fieldnames : list pystr) : list pyval :=
  map VStr fieldnames.

(** ** [scrape_rating_reports] *)

Section Scraper.

(** The built-in coercions [float()] and [int()] on a [str]. *)
Variable py_float : pystr -> result spec_float.
Variable py_int : pystr -> result Z.

(** The outside: [s.post(url, data=payload)] on a fresh session, and
    [s.get(url)] followed by [BeautifulSoup(resp.content, "html.parser")]
    and [soup.findAll('table', {'class': 'contentpaneopen'})]. *)
Variable World : Type.
Variable http_post : pystr -> World -> result unit * World.
Variable http_get : pystr -> World -> result (list table) * World.

(** State of a run: the outside and the events so far, oldest first. *)
Record state := { world : World; log : list event }.

Definition M (A : Type) : Type := state -> result A * state.

Definition ret {A} (a : A) : M A := fun st => (Return a, st).
Definition bind {A B} (m : M A) (k : A -> M B) : M B :=
  fun st => match m st with
            | (Raise e, st') => (Raise e, st')
            | (Return a, st') => k a st'
            end.
Definition lift {A} (r : result A) : M A := fun st => (r, st).

Definition emit (e : event) (st : state) : state :=
  {| world := world st; log := log st ++ [e] |}.

Definition post (url : pystr) : M unit :=
  fun st => let '(r, w) := http_post url (world st) in
            (r, {| world := w; log := log st ++ [EvPost url] |}).
Definition get (url : pystr) : M (list table) :=
  fun st => let '(r, w) := http_get url (world st) in
            (r, {| world := w; log := log st ++ [EvGet url] |}).
Definition print (line : pystr) : M unit :=
  fun st => (Return tt, emit (EvPrint line) st).
Definition sleep (seconds : Z) : M unit :=
  fun st => (Return tt, emit (EvSleep seconds) st).

Declare Scope io_scope.
Delimit Scope io_scope with io.
Notation "x <- m ;; k" := (bind m (fun x => k))
  (at level 61, m at next level, right associativity) : io_scope.
Notation "m ;; k" := (bind m (fun _ => k))
  (at level 61, right associativity) : io_scope.

(** Body of [for i in range(len(trn_headers))], up to the new dict. *)
Definition loop_body (period : pystr) (trn_headers trn_scores : list tr)
           (i : nat) : result tournament :=
  (h <- index trn_headers i ;;
   hd <- unpack4 (map strip_nbsp (children h)) ;;
   let '(trn_name, city, country, date) := hd in
   s <- index trn_scores i ;;
   sc <- unpack8 (map strip_nbsp (children s)) ;;
   let '(opp_avg, ply_rtg, pts, rds, chg, kFactor, rating_change, _) := sc in
   tPts <- py_float pts ;;
   tRds <- py_int rds ;;
   tAvg <- py_int opp_avg ;;
   tChg <- py_float rating_change ;;
   performance <- calc_performance tAvg (PyFloat tPts) tRds ;;
   Return {| Rating_Period := period;
             Tournament_Name := trn_name;
             City := city;
             Country := country;
             Pts := tPts;
             Rds := tRds;
             Avg_Opponents := tAvg;
             Rtg_Change := tChg;
             Performance := performance |})%res.

Fixpoint rows_loop (period : pystr) (trn_headers trn_scores : list tr)
         (idx : list nat) (tournaments : list tournament)
  : result (list tournament) :=
  match idx with
  | [] => Return tournaments
  | i :: idx' =>
      (new_tourn <- loop_body period trn_headers trn_scores i ;;
       rows_loop period trn_headers trn_scores idx'
                 (tournaments ++ [new_tourn]))%res
  end.

(** Lines 127-152: the rows of the records table, paired by position.
    The argument of [RuntimeError] divides one [str] by another, which
    raises [TypeError] before the [RuntimeError] is built. *)
Definition parse (period : pystr) (records : table)
           (tournaments : list tournament) : result (list tournament) :=
  let trn_headers := findAll_tr records TRN_NAME_COLOR in
  let trn_scores := findAll_tr records TRN_SCORE_COLOR in
  if negb (List.length trn_headers =? List.length trn_scores)%nat
  then Raise TypeError
  else rows_loop period trn_headers trn_scores
                 (seq 0 (List.length trn_headers)) tournaments.

(** [result[0].text.replace('\n', '').replace('Individual Calculations ', '')[:-1]] *)
Definition period_of (header : table) : pystr :=
  drop_last (replace (replace (text header) [10%N] [])
                     (pstr "Individual Calculations ") []).

(** The loop [for url in urls], on the accumulator [tournaments]. *)
Fixpoint scrape_from (urls : list pystr) (tournaments : list tournament)
  : M (list tournament) :=
  match urls with
  | [] => ret tournaments
  | url :: urls' =>
      (post LOGIN_URL ;;
       result <- get url ;;
       header <- lift (index result 0) ;;
       let period := period_of header in
       records <- lift (index result 1) ;;
       if str_eqb (replace (text records) [10%N] []) NO_RECORDS_STRING
       then
         print (period ++ pstr " No Records!") ;;
         scrape_from urls' tournaments            (* continue *)
       else
         print (pstr "Scraping " ++ period ++ pstr "...") ;;
         tournaments <- lift (parse period records tournaments) ;;
         sleep 1 ;;
         scrape_from urls' tournaments)%io
  end.

Definition scrape_rating_reports (urls : list pystr) : M (list tournament) :=
  scrape_from urls [].

(** A (header row, score row) pair that the loop body turns into a
    record: four and eight cells, the four numeric cells accepted by the
    coercions, and the rounded score a key of the table. *)
Definition well_formed_pair (h s : tr) : Prop :=
  List.length (children h) = 4%nat /\
  List.length (children s) = 8%nat /\
  exists pts rds avg chg sc,
    py_float (cell s 2) = Return pts /\
    py_int (cell s 3) = Return rds /\
    py_int (cell s 0) = Return avg /\
    py_float (cell s 6) = Return chg /\
    score (PyFloat pts) rds = Return sc /\
    lookup PERFORMANCE_TABLE sc <> None.

(** What the record built from row [i] is made of. *)
Definition built_from (period : pystr) (h s : tr) (r : tournament) : Prop :=
  List.length (children h) = 4%nat /\
  List.length (children s) = 8%nat /\
  Rating_Period r = period /\
  Tournament_Name r = cell h 0 /\
  City r = cell h 1 /\
  Country r = cell h 2 /\
  py_float (cell s 2) = Return (Pts r) /\
  py_int (cell s 3) = Return (Rds r) /\
  py_int (cell s 0) = Return (Avg_Opponents r) /\
  py_float (cell s 6) = Return (Rtg_Change r) /\
  calc_performance (Avg_Opponents r) (PyFloat (Pts r)) (Rds r) =
  Return (Performance r).

(** ** [write_to_csv] and [main] *)

(** The file system: [open(name, 'w')], the write of one row through the
    file object, and the closing of the file; each may raise. *)
Variable fs_open : pystr -> World -> result unit * World.
Variable fs_write : list pyval -> World -> result unit * World.
Variable fs_close : World -> result unit * World.

Definition open_w (name : pystr) : M unit :=
  fun st => let '(r, w) := fs_open name (world st) in
            (r, {| world := w; log := log st ++ [EvOpen name] |}).
Definition write (row : list pyval) : M unit :=
  fun st => let '(r, w) := fs_write row (world st) in
            (r, {| world := w; log := log st ++ [EvWrite row] |}).
Definition close : M unit :=
  fun st => let '(r, w) := fs_close (world st) in
            (r, {| world := w; log := log st ++ [EvClose] |}).

(** [with open(name, 'w') as f: body]: when [open] raises, nothing else
    happens; otherwise the file is closed when the body is left, also by
    an exception, and an exception of the closing replaces the body's
    outcome. *)
Definition with_open {A} (name : pystr) (body : M A) : M A :=
  fun st => match open_w name st with
            | (Raise e, st1) => (Raise e, st1)
            | (Return _, st1) =>
                let '(r, st2) := body st1 in
                match close st2 with
                | (Raise e, st3) => (Raise e, st3)
                | (Return _, st3) => (r, st3)
                end
            end.

(** [writer.writerow(rowdict)] and [writer.writeheader()] *)
Definition writerow (rowdict : list (pystr * pyval)) : M unit :=
  (row <- lift (dict_to_list csv_fields rowdict) ;;
   write row)%io.

Definition writeheader : M unit := write (header_cells csv_fields).

(** The loop [for trn in tournaments: writer.writerow(trn)]. *)
Fixpoint write_rows (tournaments : list tournament) : M unit :=
  match tournaments with
  | [] => ret tt
  | trn :: rest => (writerow (new_tourn_dict trn) ;; write_rows rest)%io
  end.

Definition write_to_csv (player_id : pystr) (tournaments : list tournament)
  : M unit :=
  with_open (player_id ++ pstr ".csv")
            (writeheader ;; write_rows tournaments)%io.

(** The file system never refuses an operation. *)
Definition accepting : Prop :=
  (forall name w, fst (fs_open name w) = Return tt)
  /\ (forall row w, fst (fs_write row w) = Return tt)
  /\ (forall w, fst (fs_close w) = Return tt).

(** [main], after the arguments are parsed: [player_id] is [args.id],
    [months] is [args.months]; [tz] is the zone of the process and [now]
    the [(tm_year, tm_mon)] of the clock read by [get_rating_urls]. *)
Definition main (tz : zone) (player_id : pystr) (months : Z) (now : Z * Z)
  : M unit :=
  (let urls := get_rating_urls tz player_id now months in
   tournaments <- scrape_rating_reports urls ;;
   write_to_csv player_id tournaments)%io.

(** The six ways one URL is processed. *)
Inductive step_of (url : pystr) (urls' : list pystr)
          (acc : list tournament) (st : state)
  : result (list tournament) * state -> Prop :=
| step_post_fails e w1 :
    http_post LOGIN_URL (world st) = (Raise e, w1) ->
    step_of url urls' acc st
            (Raise e, {| world := w1; log := log st ++ [EvPost LOGIN_URL] |})
| step_get_fails u w1 e w2 :
    http_post LOGIN_URL (world st) = (Return u, w1) ->
    http_get url w1 = (Raise e, w2) ->
    step_of url urls' acc st
            (Raise e, {| world := w2;
                         log := log st ++ [EvPost LOGIN_URL; EvGet url] |})
| step_short_page u w1 result w2 :
    http_post LOGIN_URL (world st) = (Return u, w1) ->
    http_get url w1 = (Return result, w2) ->
    (List.length result < 2)%nat ->
    step_of url urls' acc st
            (Raise IndexError,
             {| world := w2;
                log := log st ++ [EvPost LOGIN_URL; EvGet url] |})
| step_no_records u w1 result w2 header records :
    http_post LOGIN_URL (world st) = (Return u, w1) ->
    http_get url w1 = (Return result, w2) ->
    nth_error result 0 = Some header ->
    nth_error result 1 = Some records ->
    replace (text records) [10%N] [] = NO_RECORDS_STRING ->
    step_of url urls' acc st
            (scrape_from urls' acc
               {| world := w2;
                  log := log st ++ [EvPost LOGIN_URL; EvGet url;
                                    EvPrint (period_of header
                                             ++ pstr " No Records!")] |})
| step_parse_fails u w1 result w2 header records e :
    http_post LOGIN_URL (world st) = (Return u, w1) ->
    http_get url w1 = (Return result, w2) ->
    nth_error result 0 = Some header ->
    nth_error result 1 = Some records ->
    replace (text records) [10%N] [] <> NO_RECORDS_STRING ->
    parse (period_of header) records acc = Raise e ->
    step_of url urls' acc st
            (Raise e,
             {| world := w2;
                log := log st ++ [EvPost LOGIN_URL; EvGet url;
                                  EvPrint (pstr "Scraping "
                                           ++ period_of header
                                           ++ pstr "...")] |})
| step_records u w1 result w2 header records acc' :
    http_post LOGIN_URL (world st) = (Return u, w1) ->
    http_get url w1 = (Return result, w2) ->
    nth_error result 0 = Some header ->
    nth_error result 1 = Some records ->
    replace (text records) [10%N] [] <> NO_RECORDS_STRING ->
    parse (period_of header) records acc = Return acc' ->
    step_of url urls' acc st
            (scrape_from urls' acc'
               {| world := w2;
                  log := log st ++ [EvPost LOGIN_URL; EvGet url;
                                    EvPrint (pstr "Scraping "
                                             ++ period_of header
                                             ++ pstr "...");
                                    EvSleep 1] |}).

End Scraper.

(** ** Definitions used in the statements *)

(** The float written [k/100] with two decimals, [0 <= k]. *)
Definition hundredth (k : Z) : spec_float :=
  match k with
  | Zpos p => F64.nearest false p 100
  | _ => S754_zero false
  end.

(** [n - x] for an int [n] and a float [x]. *)
Definition rsub (n : Z) (x : spec_float) : result spec_float :=
  (n' <- F64.of_int n ;; Return (F64.sub n' x))%res.



(** A fetch is throttled when a [sleep] of at least one second separates
    its login request from the previous one. *)
Fixpoint throttled_from (slept : bool) (l : list event) : bool :=
  match l with
  | [] => true
  | EvPost _ :: l' => slept && throttled_from false l'
  | EvSleep n :: l' => throttled_from (slept || (1 <=? n)) l'
  | _ :: l' => throttled_from slept l'
  end.

Definition throttled (l : list event) : bool := throttled_from true l.

(** The key written [k/100] in the source: float literals, and the int
    literal [0]. *)
Definition table_key (k : Z) : pynum :=
  if k =? 0 then PyInt 0 else PyFloat (hundredth k).

(** The URLs fetched, in the order of their [EvGet] events. *)
Fixpoint fetched (l : list event) : list pystr :=
  match l with
  | [] => []
  | EvGet url :: l' => url :: fetched l'
  | _ :: l' => fetched l'
  end.

(** The names of the files opened, in the order of their [EvOpen] events. *)
Fixpoint opened (l : list event) : list pystr :=
  match l with
  | [] => []
  | EvOpen name :: l' => name :: opened l'
  | _ :: l' => opened l'
  end.

(** The events of a run that returns: for each URL in turn a login, the
    fetch and one printed line, followed by a sleep of one second exactly
    when the period had records. *)
Inductive blocks : list pystr -> list event -> Prop :=
| blocks_nil : blocks [] []
| blocks_no_records url urls period evs :
    blocks urls evs ->
    blocks (url :: urls)
           (EvPost LOGIN_URL :: EvGet url
            :: EvPrint (period ++ pstr " No Records!") :: evs)
| blocks_records url urls period evs :
    blocks urls evs ->
    blocks (url :: urls)
           (EvPost LOGIN_URL :: EvGet url
            :: EvPrint (pstr "Scraping " ++ period ++ pstr "...")
            :: EvSleep 1 :: evs).

(** No non-breaking space in a string. *)
Definition nbsp_free (s : pystr) : Prop := ~ In 160%N s.

(** What holds of every record the run returns. *)
Definition sound_record (r : tournament) : Prop :=
  Rds r <> 0
  /\ Avg_Opponents r - 800 <= Performance r <= Avg_Opponents r + 800
  /\ nbsp_free (Tournament_Name r)
  /\ nbsp_free (City r)
  /\ nbsp_free (Country r).

(** A row carrying one of the two background colours the parser selects. *)
Definition marked (r : tr) : bool :=
  match bgcolor r with
  | Some c => str_eqb c TRN_NAME_COLOR || str_eqb c TRN_SCORE_COLOR
  | None => false
  end.

(** Checks on the table, one key at a time: the entry found for [k/100] is
    the one written at its position; the entry of [(k+1)/100] is larger;
    [k/100] points in one round reach the entry of [k/100]. *)
Definition entry_at (k : Z) : bool :=
  match lookup PERFORMANCE_TABLE (hundredth k),
        nth_error PERFORMANCE_TABLE (Z.to_nat (100 - k)) with
  | Some v, Some (key, w) => (v =? w) && key_eqb (hundredth k) key
  | _, _ => false
  end.

Definition increasing_at (k : Z) : bool :=
  match lookup PERFORMANCE_TABLE (hundredth k),
        lookup PERFORMANCE_TABLE (hundredth (k + 1)) with
  | Some a, Some b => a <? b
  | _, _ => false
  end.

Definition reached_at (k : Z) : bool :=
  match score (PyFloat (hundredth k)) 1 with
  | Return sc =>
      match lookup PERFORMANCE_TABLE sc, lookup PERFORMANCE_TABLE (hundredth k) with
      | Some a, Some b => a =? b
      | _, _ => false
      end
  | Raise _ => false
  end.

(** The row of a record: its nine values in the order of [csv_fields]. *)
Definition csv_row (r : tournament) : list pyval :=
  [VStr (Rating_Period r); VStr (Tournament_Name r); VStr (City r);
   VStr (Country r); VFloat (Pts r); VInt (Rds r); VInt (Avg_Opponents r);
   VFloat (Rtg_Change r); VInt (Performance r)].

(** ** A static site, for the examples *)

Definition static_post (_ : pystr) (w : unit) : result unit * unit :=
  (Return tt, w).

Definition static_get (site : pystr -> list table) (url : pystr) (w : unit)
  : result (list table) * unit :=
  (Return (site url), w).

Definition start : state unit := {| world := tt; log := [] |}.

Definition header_row (name city country date : string) : tr :=
  {| bgcolor := Some TRN_NAME_COLOR;
     children := [pstr name; pstr city; pstr country; pstr date] |}.

Definition score_row (c0 c1 c2 c3 c4 c5 c6 c7 : string) : tr :=
  {| bgcolor := Some TRN_SCORE_COLOR;
     children := [pstr c0; pstr c1; pstr c2; pstr c3;
                  pstr c4; pstr c5; pstr c6; pstr c7] |}.

Definition records_table (rows : list tr) : table :=
  {| text := pstr "Tournament results"; trs := rows |}.

Definition period_table : table :=
  {| text := pstr "Individual Calculations 2019-Jan:"; trs := [] |}.

Definition no_records_table : table :=
  {| text := NO_RECORDS_STRING; trs := [] |}.

Definition no_records_page : list table := [period_table; no_records_table].

Definition results_page (rows : list tr) : list table :=
  [period_table; records_table rows].

Definition score_ok : tr :=
  score_row "2100" "2000" "4.5" "9" "5.2" "20" "5.2" "".
Definition score_over : tr :=
  score_row "2100" "2000" "9.04" "9" "5.2" "20" "5.2" "".
Definition score_negative : tr :=
  score_row "2100" "2000" "0" "-3" "-5.2" "20" "-5.2" "".
Definition score_zero_rounds : tr :=
  score_row "2100" "2000" "0" "0" "0" "20" "0" "".
Definition short_header : tr :=
  {| bgcolor := Some TRN_NAME_COLOR;
     children := [pstr "Open C"; pstr "Haifa"; pstr "ISR"] |}.

Definition jan : pystr := pstr "2019-Jan".

Definition dec_parse := parse dec_float dec_int.

Definition dec_scrape (site : pystr -> list table) (urls : list pystr) :=
  scrape_rating_reports dec_float dec_int static_post (static_get site) urls
                        start.

Definition open_a : tr := header_row "Open A" "Haifa" "ISR" "2019-01-05".
Definition open_b : tr := header_row "Open B" "Eilat" "ISR" "2019-01-20".

(** A site whose first period has no records and whose other periods have
    one tournament; a page with a single table; a session that fails. *)
Definition mixed_site (url : pystr) : list table :=
  if str_eqb url (pstr "u1") then no_records_page
  else results_page [open_a; score_ok].

Definition short_page : list table := [period_table].

Definition failing_post (_ : pystr) (w : unit) : result unit * unit :=
  (Raise TransportError, w).

Definition failing_get (_ : pystr) (w : unit) : result (list table) * unit :=
  (Raise TransportError, w).

(** A file system that accepts everything, and one that refuses to open. *)
Definition static_open (_ : pystr) (w : unit) : result unit * unit :=
  (Return tt, w).
Definition static_write (_ : list pyval) (w : unit) : result unit * unit :=
  (Return tt, w).
Definition static_close (w : unit) : result unit * unit := (Return tt, w).

Definition failing_open (_ : pystr) (w : unit) : result unit * unit :=
  (Raise OSError, w).

(** Zones: UTC has no daylight-saving rule; Europe/Dublin, as the tz
    database has described it since 1971, is on its standard time from the
    last Sunday of March to the last Sunday of October and one hour behind
    it for the rest of the year, so on the first of November to March. *)
Definition utc : zone := fun _ _ => 0.

Definition dublin : zone :=
  fun _ m => if (4 <=? m) && (m <=? 10) then 0 else -3600.

Definition dec_main (tz : zone) (site : pystr -> list table)
           (player_id : pystr) (months : Z) (now : Z * Z) :=
  main dec_float dec_int static_post (static_get site)
       static_open static_write static_close tz player_id months now start.

(** * Properties *)

(** ** [calc_performance] *)

Lemma calc_performance_score (avg : Z) (pts : pynum) (rds : Z) :
  calc_performance avg pts rds =
  (sc <- score pts rds ;;
   off <- getitem PERFORMANCE_TABLE sc ;;
   Return (avg + off))%res.
Proof.
  unfold calc_performance, score.
  destruct (truediv_num pts rds); reflexivity.
Qed.

Lemma getitem_lookup (d : list (pynum * Z)) (x : spec_float) (v : Z) :
  lookup d x = Some v -> getitem d x = Return v.
Proof. unfold getitem; intros ->; reflexivity. Qed.

Lemma calc_performance_lookup (avg : Z) (pts : pynum) (rds : Z)
      (sc : spec_float) (off : Z) :
  score pts rds = Return sc ->
  lookup PERFORMANCE_TABLE sc = Some off ->
  calc_performance avg pts rds = Return (avg + off).
Proof.
  intros Hsc Hoff.
  rewrite calc_performance_score, Hsc; cbn [rbind].
  rewrite (getitem_lookup _ _ Hoff); reflexivity.
Qed.



(** ** The table is antisymmetric *)

Definition antisymmetric_at (k : Z) : bool :=
  match lookup PERFORMANCE_TABLE (hundredth k),
        lookup PERFORMANCE_TABLE (hundredth (100 - k)) with
  | Some a, Some b => b =? - a
  | _, _ => false
  end.

Lemma in_range (n k : Z) : 0 <= k < n -> In k (range n).
Proof.
  intros H. unfold range.
  replace k with (Z.of_nat (Z.to_nat k)) by lia.
  apply in_map, in_seq. lia.
Qed.

Lemma table_antisymmetric (k : Z) :
  0 <= k <= 100 ->
  exists v, lookup PERFORMANCE_TABLE (hundredth k) = Some v
            /\ lookup PERFORMANCE_TABLE (hundredth (100 - k)) = Some (- v).
Proof.
  intros Hk.
  assert (Hall : forallb antisymmetric_at (range 101) = true)
    by (vm_compute; reflexivity).
  rewrite forallb_forall in Hall.
  assert (Hin : In k (range 101)) by (apply in_range; lia).
  specialize (Hall k Hin).
  unfold antisymmetric_at in Hall.
  destruct (lookup PERFORMANCE_TABLE (hundredth k)) as [a |]; [| discriminate].
  destruct (lookup PERFORMANCE_TABLE (hundredth (100 - k))) as [b |];
    [| discriminate].
  apply Z.eqb_eq in Hall. subst b. exists a. split; reflexivity.
Qed.

(** C10, as the code has it. On its two-decimal keys the table is
    antisymmetric about 0.50: every [k/100] with [0 <= k <= 100] is a key,
    and the entry of [(100-k)/100] is the opposite of the entry of [k/100].
    Consequently [calc_performance(0, rounds - points, rounds)] is the
    opposite of [calc_performance(0, points, rounds)] whenever the two
    rounded scores are the complementary keys [k/100] and [(100-k)/100]. *)
Theorem performance_antisymmetric :
  (forall k : Z, 0 <= k <= 100 ->
     exists v, lookup PERFORMANCE_TABLE (hundredth k) = Some v
               /\ lookup PERFORMANCE_TABLE (hundredth (100 - k)) = Some (- v))
  /\ (forall (pts : spec_float) (rds k : Z) (rest : spec_float),
         0 <= k <= 100 ->
         rsub rds pts = Return rest ->
         score (PyFloat pts) rds = Return (hundredth k) ->
         score (PyFloat rest) rds = Return (hundredth (100 - k)) ->
         exists v, calc_performance 0 (PyFloat pts) rds = Return v
                   /\ calc_performance 0 (PyFloat rest) rds = Return (- v)).
Proof.
  split; [exact table_antisymmetric |].
  intros pts rds k rest Hk _ Hp Hr.
  destruct (table_antisymmetric Hk) as (v & Hv & Hv').
  exists v. rewrite !calc_performance_score, Hp, Hr; cbn [rbind].
  rewrite (getitem_lookup _ _ Hv), (getitem_lookup _ _ Hv'); cbn [rbind].
  split; reflexivity.
Qed.

Lemma performance_antisymmetric_witness :
  0 <= 78 <= 100
  /\ rsub 9 (float_lit "7") = Return (float_lit "2")
  /\ score (flt "7") 9 = Return (hundredth 78)
  /\ score (flt "2") 9 = Return (hundredth (100 - 78))
  /\ exists v, calc_performance 0 (flt "7") 9 = Return v
               /\ calc_performance 0 (flt "2") 9 = Return (- v).
Proof.
  split; [lia |].
  split; [vm_compute; reflexivity |].
  split; [vm_compute; reflexivity |].
  split; [vm_compute; reflexivity |].
  apply (proj2 performance_antisymmetric (float_lit "7") 9 78 (float_lit "2"));
    [lia | vm_compute; reflexivity ..].
Defined.

(** C10 as stated fails on the code: with 3.5 points out of 20 the two
    rounded scores are 0.17 and 0.82, not complementary, and the two
    performances are -273 and 262; and [1 - 0.78], computed in binary64, is
    not a key of the table although 0.78 is. *)
Lemma performance_not_antisymmetric :
  rsub 20 (float_lit "3.5") = Return (float_lit "16.5")
  /\ calc_performance 0 (flt "3.5") 20 = Return (-273)
  /\ calc_performance 0 (flt "16.5") 20 = Return 262
  /\ lookup PERFORMANCE_TABLE (float_lit "0.78") = Some 220
  /\ lookup PERFORMANCE_TABLE (F64.sub (float_lit "1") (float_lit "0.78")) = None.
Proof. repeat split; vm_compute; reflexivity. Qed.

(** ** [get_rating_urls] *)




Lemma normalise_month (y m : Z) : 1 <= snd (normalise y m) <= 12.
Proof.
  unfold normalise. cbn [snd].
  pose proof (Z.mod_pos_bound (m - 1) 12 ltac:(lia)). lia.
Qed.

Lemma normalise_normalise (y m : Z) :
  normalise (fst (normalise y m)) (snd (normalise y m) - 1) =
  normalise y (m - 1).
Proof.
  unfold normalise. cbn [fst snd].
  f_equal; Z.div_mod_to_equations; lia.
Qed.

Lemma localtime_mktime_cases (tz : zone) (y m : Z) :
  localtime_mktime tz y m = normalise y m
  \/ localtime_mktime tz y m = normalise y (m - 1).
Proof.
  unfold localtime_mktime.
  pose proof (normalise_normalise y m) as E.
  destruct (normalise y m) as [y1 m1]. cbn [fst snd] in E.
  destruct (tz y1 m1 <? 0); [right; exact E | left; reflexivity].
Qed.

Lemma localtime_mktime_ahead (tz : zone) (y m : Z) :
  (forall y' m', 0 <= tz y' m') ->
  localtime_mktime tz y m = normalise y m.
Proof.
  intros Htz. unfold localtime_mktime.
  destruct (normalise y m) as [y1 m1].
  destruct (Z.ltb_spec (tz y1 m1) 0) as [H | _]; [| reflexivity].
  specialize (Htz y1 m1). lia.
Qed.

Lemma periods_ahead (tz : zone) (now : Z * Z) (months : Z) :
  (forall y' m', 0 <= tz y' m') ->
  periods tz now months =
  map (fun n => normalise (fst now) (snd now - n)) (range months).
Proof.
  intros Htz. unfold periods. apply map_ext.
  intros n. apply localtime_mktime_ahead. exact Htz.
Qed.



(** ** The rows loop *)

Section ScraperFacts.

Variable py_float : pystr -> result spec_float.
Variable py_int : pystr -> result Z.

Local Abbreviation loop_body_c := (loop_body py_float py_int).
Local Abbreviation rows_loop_c := (rows_loop py_float py_int).
Local Abbreviation parse_c := (parse py_float py_int).
Local Abbreviation well_formed_pair_c := (well_formed_pair py_float py_int).
Local Abbreviation built_from_c := (built_from py_float py_int).

Lemma unpack4_length (l : list pystr) :
  List.length l <> 4%nat -> unpack4 l = Raise (unpack_error 4 (List.length l)).
Proof.
  destruct l as [| x0 [| x1 [| x2 [| x3 [| x4 l]]]]]; cbn; intros H;
    try reflexivity.
  contradiction H; reflexivity.
Qed.

Lemma unpack8_length (l : list pystr) :
  List.length l <> 8%nat -> unpack8 l = Raise (unpack_error 8 (List.length l)).
Proof.
  destruct l as [| x0 [| x1 [| x2 [| x3 [| x4 [| x5 [| x6 [| x7 [| x8 l]]]]]]]]];
    cbn; intros H; try reflexivity.
  contradiction H; reflexivity.
Qed.

Lemma unpack4_cells (h : tr) :
  List.length (children h) = 4%nat ->
  unpack4 (map strip_nbsp (children h)) =
  Return (cell h 0, cell h 1, cell h 2, cell h 3).
Proof.
  unfold cell.
  destruct (children h) as [| x0 [| x1 [| x2 [| x3 [| x4 l]]]]]; cbn;
    intros H; try discriminate. reflexivity.
Qed.

Lemma unpack8_cells (s : tr) :
  List.length (children s) = 8%nat ->
  unpack8 (map strip_nbsp (children s)) =
  Return (cell s 0, cell s 1, cell s 2, cell s 3,
          cell s 4, cell s 5, cell s 6, cell s 7).
Proof.
  unfold cell.
  destruct (children s)
    as [| x0 [| x1 [| x2 [| x3 [| x4 [| x5 [| x6 [| x7 [| x8 l]]]]]]]]];
    cbn; intros H; try discriminate. reflexivity.
Qed.

Lemma index_nth_error {A} (l : list A) (i : nat) (a : A) :
  nth_error l i = Some a -> index l i = Return a.
Proof. unfold index; intros ->; reflexivity. Qed.

(** The loop body on a row pair of the right shape, spelled out. *)
Lemma loop_body_shape period hs ss i h s :
  nth_error hs i = Some h ->
  nth_error ss i = Some s ->
  List.length (children h) = 4%nat ->
  List.length (children s) = 8%nat ->
  loop_body_c period hs ss i =
  (tPts <- py_float (cell s 2) ;;
   tRds <- py_int (cell s 3) ;;
   tAvg <- py_int (cell s 0) ;;
   tChg <- py_float (cell s 6) ;;
   performance <- calc_performance tAvg (PyFloat tPts) tRds ;;
   Return {| Rating_Period := period;
             Tournament_Name := cell h 0;
             City := cell h 1;
             Country := cell h 2;
             Pts := tPts;
             Rds := tRds;
             Avg_Opponents := tAvg;
             Rtg_Change := tChg;
             Performance := performance |})%res.
Proof.
  intros Hh Hs Lh Ls. unfold loop_body.
  rewrite (index_nth_error _ _ Hh), (index_nth_error _ _ Hs); cbn [rbind].
  rewrite (unpack4_cells _ Lh); cbn [rbind].
  rewrite (unpack8_cells _ Ls); cbn [rbind].
  reflexivity.
Qed.

Lemma loop_body_inv period hs ss i r :
  loop_body_c period hs ss i = Return r ->
  exists h s, nth_error hs i = Some h /\ nth_error ss i = Some s
              /\ built_from_c period h s r.
Proof.
  unfold loop_body, index.
  destruct (nth_error hs i) as [h |] eqn:Hh; cbn [rbind]; [| discriminate].
  destruct (Nat.eq_dec (List.length (children h)) 4) as [Lh | Lh].
  2:{ rewrite unpack4_length by (rewrite length_map; exact Lh).
      discriminate. }
  rewrite (unpack4_cells _ Lh); cbn [rbind].
  destruct (nth_error ss i) as [s |] eqn:Hs; cbn [rbind]; [| discriminate].
  destruct (Nat.eq_dec (List.length (children s)) 8) as [Ls | Ls].
  2:{ rewrite unpack8_length by (rewrite length_map; exact Ls).
      discriminate. }
  rewrite (unpack8_cells _ Ls); cbn [rbind].
  destruct (py_float (cell s 2)) as [| tPts] eqn:E1; cbn [rbind];
    [discriminate |].
  destruct (py_int (cell s 3)) as [| tRds] eqn:E2; cbn [rbind];
    [discriminate |].
  destruct (py_int (cell s 0)) as [| tAvg] eqn:E3; cbn [rbind];
    [discriminate |].
  destruct (py_float (cell s 6)) as [| tChg] eqn:E4; cbn [rbind];
    [discriminate |].
  destruct (calc_performance tAvg (PyFloat tPts) tRds) as [| perf] eqn:E5;
    cbn [rbind]; [discriminate |].
  intros H; injection H as <-.
  exists h, s. unfold built_from_c; cbn. repeat split; assumption.
Qed.

Lemma rows_loop_ok period hs ss idx acc rs :
  Forall2 (fun i r => loop_body_c period hs ss i = Return r) idx rs ->
  rows_loop_c period hs ss idx acc = Return (acc ++ rs).
Proof.
  intros H; revert acc.
  induction H as [| i r idx rs Hi _ IH]; intros acc; cbn [rows_loop].
  - rewrite app_nil_r; reflexivity.
  - rewrite Hi; cbn [rbind]. rewrite IH, <- app_assoc. reflexivity.
Qed.

Lemma rows_loop_inv period hs ss idx acc out :
  rows_loop_c period hs ss idx acc = Return out ->
  exists rs, out = acc ++ rs
             /\ Forall2 (fun i r => loop_body_c period hs ss i = Return r) idx rs.
Proof.
  revert acc; induction idx as [| i idx IH]; intros acc;
    cbn [rows_loop].
  - intros H; injection H as <-. exists []. rewrite app_nil_r.
    split; [reflexivity | constructor].
  - destruct (loop_body_c period hs ss i) as [e | r] eqn:Hi; cbn [rbind];
      [discriminate |].
    intros H. destruct (IH _ H) as (rs & -> & Hrs).
    exists (r :: rs). rewrite <- app_assoc. split; [reflexivity |].
    constructor; assumption.
Qed.

(** The loop stops at the first row whose body raises. *)
Lemma rows_loop_first_raise period hs ss pre i post acc rs e :
  Forall2 (fun j r => loop_body_c period hs ss j = Return r) pre rs ->
  loop_body_c period hs ss i = Raise e ->
  rows_loop_c period hs ss (pre ++ i :: post) acc = Raise e.
Proof.
  intros H; revert acc.
  induction H as [| j r pre rs Hj _ IH]; intros acc Hi;
    cbn [rows_loop app].
  - rewrite Hi; reflexivity.
  - rewrite Hj; cbn [rbind]. apply IH; assumption.
Qed.

Lemma rows_loop_raise period hs ss idx i e acc :
  In i idx ->
  loop_body_c period hs ss i = Raise e ->
  exists e', rows_loop_c period hs ss idx acc = Raise e'.
Proof.
  revert acc; induction idx as [| j idx IH]; intros acc Hin Hi;
    [contradiction |].
  cbn [rows_loop].
  destruct (loop_body_c period hs ss j) as [e' | r] eqn:Hj; cbn [rbind].
  - exists e'; reflexivity.
  - destruct Hin as [-> | Hin]; [congruence |]. apply IH; assumption.
Qed.

Lemma Forall2_seq_nth {A} (R : nat -> A -> Prop) (n a : nat) (rs : list A) :
  Forall2 R (seq a n) rs ->
  List.length rs = n
  /\ forall i, (i < n)%nat ->
               exists r, nth_error rs i = Some r /\ R (a + i)%nat r.
Proof.
  revert a rs; induction n as [| n IH]; intros a rs H; cbn [seq] in H.
  - inversion H; subst. split; [reflexivity | intros i Hi; lia].
  - inversion H as [| x r l rs' Hr Hrest]; subst.
    destruct (IH _ _ Hrest) as [Hlen Hnth].
    split; [cbn; congruence |].
    intros [| i] Hi.
    + exists r. rewrite Nat.add_0_r. split; [reflexivity | assumption].
    + destruct (Hnth i ltac:(lia)) as (r' & Hr' & HR).
      exists r'. split; [exact Hr' |].
      replace (a + S i)%nat with (S a + i)%nat by lia. exact HR.
Qed.

Lemma Forall2_exists {A} (R : nat -> A -> Prop) (idx : list nat) :
  (forall i, In i idx -> exists r, R i r) ->
  exists rs, Forall2 R idx rs.
Proof.
  induction idx as [| i idx IH]; intros H.
  - exists []; constructor.
  - destruct (H i (or_introl eq_refl)) as [r Hr].
    destruct IH as [rs Hrs]; [intros j Hj; apply H; right; exact Hj |].
    exists (r :: rs); constructor; assumption.
Qed.

(** ** One record per row pair *)

Lemma loop_body_return period hs ss i h s pts rds avg chg perf :
  nth_error hs i = Some h ->
  nth_error ss i = Some s ->
  List.length (children h) = 4%nat ->
  List.length (children s) = 8%nat ->
  py_int (cell s 0) = Return avg ->
  py_float (cell s 2) = Return pts ->
  py_int (cell s 3) = Return rds ->
  py_float (cell s 6) = Return chg ->
  calc_performance avg (PyFloat pts) rds = Return perf ->
  loop_body_c period hs ss i =
  Return {| Rating_Period := period;
            Tournament_Name := cell h 0;
            City := cell h 1;
            Country := cell h 2;
            Pts := pts;
            Rds := rds;
            Avg_Opponents := avg;
            Rtg_Change := chg;
            Performance := perf |}.
Proof.
  intros Hh Hs Lh Ls Eavg Epts Erds Echg Eperf.
  rewrite (loop_body_shape period _ _ _ Hh Hs Lh Ls).
  rewrite Epts, Erds, Eavg, Echg; cbn [rbind].
  rewrite Eperf; reflexivity.
Qed.

(** C9. For a row pair of the right shape whose numeric cells are
    accepted, the record takes its average opponent rating from score
    cell 0 (as an int), its points from cell 2 (as a float), its rounds
    from cell 3 (as an int) and its rating change from cell 6 (as a
    float); cells 1, 4, 5 and 7 do not reach the record: any score row
    that agrees on cells 0, 2, 3 and 6 gives the same result. *)
Theorem record_fields period hs ss i h s pts rds avg chg perf :
  nth_error hs i = Some h ->
  nth_error ss i = Some s ->
  List.length (children h) = 4%nat ->
  List.length (children s) = 8%nat ->
  py_int (cell s 0) = Return avg ->
  py_float (cell s 2) = Return pts ->
  py_int (cell s 3) = Return rds ->
  py_float (cell s 6) = Return chg ->
  calc_performance avg (PyFloat pts) rds = Return perf ->
  loop_body_c period hs ss i =
  Return {| Rating_Period := period;
            Tournament_Name := cell h 0;
            City := cell h 1;
            Country := cell h 2;
            Pts := pts;
            Rds := rds;
            Avg_Opponents := avg;
            Rtg_Change := chg;
            Performance := perf |}
  /\ forall ss' s',
      nth_error ss' i = Some s' ->
      List.length (children s') = 8%nat ->
      cell s' 0 = cell s 0 -> cell s' 2 = cell s 2 ->
      cell s' 3 = cell s 3 -> cell s' 6 = cell s 6 ->
      loop_body_c period hs ss' i = loop_body_c period hs ss i.
Proof.
  intros Hh Hs Lh Ls Eavg Epts Erds Echg Eperf. split.
  - apply loop_body_return with (h := h) (s := s); assumption.
  - intros ss' s' Hs' Ls' E0 E2 E3 E6.
    rewrite (loop_body_shape period _ _ _ Hh Hs Lh Ls).
    rewrite (loop_body_shape period _ _ _ Hh Hs' Lh Ls').
    rewrite E0, E2, E3, E6. reflexivity.
Qed.

Lemma calc_performance_rounds avg pts rds perf :
  calc_performance avg pts rds = Return perf ->
  rds <> 0
  /\ exists sc off, score pts rds = Return sc
                    /\ lookup PERFORMANCE_TABLE sc = Some off
                    /\ perf = avg + off.
Proof.
  rewrite calc_performance_score. intros H. split.
  - intros ->. unfold score in H.
    destruct pts as [n | f]; discriminate H.
  - destruct (score pts rds) as [| sc]; cbn [rbind] in H; [discriminate |].
    unfold getitem in H.
    destruct (lookup PERFORMANCE_TABLE sc) as [off |] eqn:Eoff;
      cbn [rbind] in H; [| discriminate].
    injection H as <-. exists sc, off. repeat split; assumption.
Qed.

Lemma loop_body_well_formed period hs ss i h s :
  nth_error hs i = Some h ->
  nth_error ss i = Some s ->
  well_formed_pair_c h s ->
  exists r, loop_body_c period hs ss i = Return r /\ built_from_c period h s r.
Proof.
  intros Hh Hs (Lh & Ls & pts & rds & avg & chg & sc & E2 & E3 & E0 & E6
                & Esc & Hkey).
  destruct (lookup PERFORMANCE_TABLE sc) as [off |] eqn:Eoff;
    [| contradiction Hkey; reflexivity].
  assert (Eperf : calc_performance avg (PyFloat pts) rds = Return (avg + off))
    by (apply calc_performance_lookup with (sc := sc); assumption).
  pose proof (loop_body_return period _ _ _ Hh Hs Lh Ls E0 E2 E3 E6 Eperf)
    as E.
  eexists; split; [exact E |].
  unfold built_from; cbn. repeat split; assumption.
Qed.

(** ** The parser on a whole table *)

Lemma parse_rows period records acc :
  List.length (findAll_tr records TRN_NAME_COLOR) =
  List.length (findAll_tr records TRN_SCORE_COLOR) ->
  parse_c period records acc =
  rows_loop_c period (findAll_tr records TRN_NAME_COLOR)
            (findAll_tr records TRN_SCORE_COLOR)
            (seq 0 (List.length (findAll_tr records TRN_NAME_COLOR))) acc.
Proof.
  intros E. unfold parse.
  rewrite (proj2 (Nat.eqb_eq _ _) E). reflexivity.
Qed.

Lemma parse_mismatch period records acc :
  List.length (findAll_tr records TRN_NAME_COLOR) <>
  List.length (findAll_tr records TRN_SCORE_COLOR) ->
  parse_c period records acc = Raise TypeError.
Proof.
  intros E. unfold parse.
  rewrite (proj2 (Nat.eqb_neq _ _) E). reflexivity.
Qed.

Lemma parse_inv period records acc out :
  parse_c period records acc = Return out ->
  exists rs,
    out = acc ++ rs
    /\ Forall2 (fun i r =>
                  loop_body_c period (findAll_tr records TRN_NAME_COLOR)
                            (findAll_tr records TRN_SCORE_COLOR) i = Return r)
               (seq 0 (List.length (findAll_tr records TRN_NAME_COLOR))) rs.
Proof.
  unfold parse.
  destruct (negb _); [discriminate |]. apply rows_loop_inv.
Qed.

(** C2, as the code has it. When the header rows and the score rows of
    the table pair up into N well-formed pairs (four and eight cells,
    numeric cells accepted, rounded score a key of the table), parsing
    appends exactly N records, in row order, the i-th built from the
    i-th pair; each has a non-zero number of rounds and a rounded score
    that is a key of the table. *)
Theorem parse_well_formed period records acc hs ss :
  hs = findAll_tr records TRN_NAME_COLOR ->
  ss = findAll_tr records TRN_SCORE_COLOR ->
  List.length hs = List.length ss ->
  (forall i h s, nth_error hs i = Some h -> nth_error ss i = Some s ->
                 well_formed_pair_c h s) ->
  exists rs,
    parse_c period records acc = Return (acc ++ rs)
    /\ List.length rs = List.length hs
    /\ forall i h s,
        nth_error hs i = Some h -> nth_error ss i = Some s ->
        exists r, nth_error rs i = Some r
                  /\ built_from_c period h s r
                  /\ Rds r <> 0
                  /\ exists sc off,
                      score (PyFloat (Pts r)) (Rds r) = Return sc
                      /\ lookup PERFORMANCE_TABLE sc = Some off
                      /\ Performance r = Avg_Opponents r + off.
Proof.
  intros -> -> Hlen Hwf.
  set (hs := findAll_tr records TRN_NAME_COLOR) in *.
  set (ss := findAll_tr records TRN_SCORE_COLOR) in *.
  set (R := fun i r =>
              loop_body_c period hs ss i = Return r
              /\ forall h s, nth_error hs i = Some h ->
                             nth_error ss i = Some s ->
                             built_from_c period h s r).
  destruct (@Forall2_exists _ R (seq 0 (List.length hs))) as [rs Hrs].
  { intros i Hi. apply in_seq in Hi.
    destruct (nth_error hs i) as [h |] eqn:Hh;
      [| apply nth_error_None in Hh; lia].
    destruct (nth_error ss i) as [s |] eqn:Hs;
      [| apply nth_error_None in Hs; lia].
    destruct (loop_body_well_formed period _ _ _ Hh Hs (Hwf _ _ _ Hh Hs))
      as (r & Hr & Hb).
    exists r. split; [exact Hr |].
    intros h' s' Hh' Hs'. congruence. }
  exists rs.
  destruct (@Forall2_seq_nth _ _ _ _ _ Hrs) as [Hlenrs Hnth].
  split.
  { rewrite parse_rows by exact Hlen. apply rows_loop_ok.
    eapply Forall2_impl; [| exact Hrs]. intros i r [H _]; exact H. }
  split; [exact Hlenrs |].
  intros i h s Hh Hs.
  assert (Hi : (i < List.length hs)%nat)
    by (apply nth_error_Some; congruence).
  destruct (Hnth i Hi) as (r & Hr & Hbody & Hb).
  exists r. split; [exact Hr |].
  specialize (Hb _ _ Hh Hs). split; [exact Hb |].
  destruct Hb as (_ & _ & _ & _ & _ & _ & _ & _ & _ & _ & Eperf).
  apply calc_performance_rounds in Eperf. exact Eperf.
Qed.

(** C6, as the code has it. When the two row groups have equal length and
    some row of a pair has the wrong number of cells, parsing raises and
    returns no record; when the rows before the first such pair are
    accepted, what is raised is the unpacking [ValueError], which carries
    the expected count (4 or 8) and, if too few, the count found, but
    not the index of the row. *)
Theorem parse_row_shape period records acc hs ss i h s :
  hs = findAll_tr records TRN_NAME_COLOR ->
  ss = findAll_tr records TRN_SCORE_COLOR ->
  List.length hs = List.length ss ->
  nth_error hs i = Some h ->
  nth_error ss i = Some s ->
  List.length (children h) <> 4%nat \/ List.length (children s) <> 8%nat ->
  (exists e, parse_c period records acc = Raise e)
  /\ ((forall j, (j < i)%nat ->
                 exists r, loop_body_c period hs ss j = Return r) ->
      parse_c period records acc =
      Raise (if (List.length (children h) =? 4)%nat
             then unpack_error 8 (List.length (children s))
             else unpack_error 4 (List.length (children h)))).
Proof.
  intros -> -> Hlen Hh Hs Hbad.
  set (hs := findAll_tr records TRN_NAME_COLOR) in *.
  set (ss := findAll_tr records TRN_SCORE_COLOR) in *.
  assert (Hi : (i < List.length hs)%nat)
    by (apply nth_error_Some; congruence).
  assert (Hraise :
            loop_body_c period hs ss i =
            Raise (if (List.length (children h) =? 4)%nat
                   then unpack_error 8 (List.length (children s))
                   else unpack_error 4 (List.length (children h)))).
  { unfold loop_body.
    rewrite (index_nth_error _ _ Hh); cbn [rbind].
    destruct (Nat.eqb_spec (List.length (children h)) 4) as [Lh | Lh].
    - rewrite (unpack4_cells _ Lh); cbn [rbind].
      rewrite (index_nth_error _ _ Hs); cbn [rbind].
      destruct Hbad as [Hbad | Hbad]; [contradiction |].
      rewrite unpack8_length by (rewrite length_map; exact Hbad).
      rewrite length_map. reflexivity.
    - rewrite unpack4_length by (rewrite length_map; exact Lh).
      rewrite length_map. reflexivity. }
  rewrite parse_rows by exact Hlen. fold hs ss. split.
  - eapply rows_loop_raise; [| exact Hraise]. apply in_seq. lia.
  - intros Hpre.
    replace (seq 0 (List.length hs))
      with (seq 0 i ++ i :: seq (S i) (List.length hs - S i)).
    2:{ change (i :: seq (S i) (List.length hs - S i))
          with (seq i (S (List.length hs - S i))).
        rewrite <- seq_app. f_equal. lia. }
    destruct (@Forall2_exists _
                (fun j r => loop_body_c period hs ss j = Return r) (seq 0 i))
      as [rs Hrs].
    { intros j Hj. apply in_seq in Hj. apply Hpre. lia. }
    eapply rows_loop_first_raise; [exact Hrs | exact Hraise].
Qed.





End ScraperFacts.

(** ** The loop over the URLs *)

Section PipelineFacts.

Variable py_float : pystr -> result spec_float.
Variable py_int : pystr -> result Z.
Variable World : Type.
Variable http_post : pystr -> World -> result unit * World.
Variable http_get : pystr -> World -> result (list table) * World.

Local Abbreviation scrape_from_c :=
  (scrape_from py_float py_int http_post http_get).

Lemma str_eqb_refl (a : pystr) : str_eqb a a = true.
Proof. unfold str_eqb. destruct (list_eq_dec N.eq_dec a a); congruence. Qed.

Lemma str_eqb_neq (a b : pystr) : a <> b -> str_eqb a b = false.
Proof. unfold str_eqb. destruct (list_eq_dec N.eq_dec a b); congruence. Qed.

(** A period without records: login, fetch, one line printed, and on to
    the next URL with the accumulator unchanged. *)
Lemma scrape_no_records_step url urls' tournaments (st : state World)
      w1 w2 result header records :
  http_post LOGIN_URL (world st) = (Return tt, w1) ->
  http_get url w1 = (Return result, w2) ->
  nth_error result 0 = Some header ->
  nth_error result 1 = Some records ->
  replace (text records) [10%N] [] = NO_RECORDS_STRING ->
  scrape_from_c (url :: urls') tournaments st =
  scrape_from_c urls' tournaments
    {| world := w2;
       log := log st ++ [EvPost LOGIN_URL; EvGet url;
                         EvPrint (period_of header ++ pstr " No Records!")] |}.
Proof.
  intros Hpost Hget H0 H1 Htext.
  cbn [scrape_from]. unfold bind at 1. unfold post.
  rewrite Hpost. unfold bind at 1. unfold get. cbn [world log].
  rewrite Hget. unfold bind at 1. unfold lift at 1, index. rewrite H0.
  unfold bind at 1. unfold lift at 1. rewrite H1.
  rewrite Htext, str_eqb_refl.
  unfold bind at 1. unfold print, emit. cbn [world log].
  rewrite <- !app_assoc. reflexivity.
Qed.

(** A period with records: the same, then the rows and a sleep. *)
Lemma scrape_records_step url urls' tournaments tournaments'
      (st : state World) w1 w2 result header records :
  http_post LOGIN_URL (world st) = (Return tt, w1) ->
  http_get url w1 = (Return result, w2) ->
  nth_error result 0 = Some header ->
  nth_error result 1 = Some records ->
  replace (text records) [10%N] [] <> NO_RECORDS_STRING ->
  parse py_float py_int (period_of header) records tournaments =
  Return tournaments' ->
  scrape_from_c (url :: urls') tournaments st =
  scrape_from_c urls' tournaments'
    {| world := w2;
       log := log st ++ [EvPost LOGIN_URL; EvGet url;
                         EvPrint (pstr "Scraping " ++ period_of header
                                       ++ pstr "...");
                         EvSleep 1] |}.
Proof.
  intros Hpost Hget H0 H1 Htext Hparse.
  cbn [scrape_from]. unfold bind at 1. unfold post.
  rewrite Hpost. unfold bind at 1. unfold get. cbn [world log].
  rewrite Hget. unfold bind at 1. unfold lift at 1, index. rewrite H0.
  unfold bind at 1. unfold lift at 1. rewrite H1.
  rewrite (str_eqb_neq Htext).
  unfold bind at 1. unfold print, emit. cbn [world log].
  unfold bind at 1. unfold lift at 1. rewrite Hparse.
  unfold bind at 1. unfold sleep, emit. cbn [world log].
  rewrite <- !app_assoc. reflexivity.
Qed.

(** C7. When the records region of the fetched page is the no-records
    string, the period is reported (one line, with the period label),
    nothing is raised and no record is added for it, and the run goes on
    with the next period. *)
Theorem no_records_continue url urls' tournaments (st : state World)
        w1 w2 result header records :
  http_post LOGIN_URL (world st) = (Return tt, w1) ->
  http_get url w1 = (Return result, w2) ->
  nth_error result 0 = Some header ->
  nth_error result 1 = Some records ->
  text records = NO_RECORDS_STRING ->
  scrape_from_c (url :: urls') tournaments st =
  scrape_from_c urls' tournaments
    {| world := w2;
       log := log st ++ [EvPost LOGIN_URL; EvGet url;
                         EvPrint (period_of header ++ pstr " No Records!")] |}.
Proof.
  intros Hpost Hget H0 H1 Htext.
  eapply scrape_no_records_step; eauto.
  rewrite Htext. vm_compute. reflexivity.
Qed.

End PipelineFacts.

(** * The properties on concrete pages *)

Lemma record_fields_witness :
  nth_error [open_a] 0 = Some open_a
  /\ nth_error [score_ok] 0 = Some score_ok
  /\ List.length (children open_a) = 4%nat
  /\ List.length (children score_ok) = 8%nat
  /\ dec_int (cell score_ok 0) = Return 2100
  /\ dec_float (cell score_ok 2) = Return (float_lit "4.5")
  /\ dec_int (cell score_ok 3) = Return 9
  /\ dec_float (cell score_ok 6) = Return (float_lit "5.2")
  /\ calc_performance 2100 (flt "4.5") 9 = Return 2100
  /\ loop_body dec_float dec_int jan [open_a] [score_ok] 0 =
     Return {| Rating_Period := jan;
               Tournament_Name := pstr "Open A";
               City := pstr "Haifa";
               Country := pstr "ISR";
               Pts := float_lit "4.5";
               Rds := 9;
               Avg_Opponents := 2100;
               Rtg_Change := float_lit "5.2";
               Performance := 2100 |}.
Proof.
  do 9 (split; [vm_compute; reflexivity |]).
  apply (proj1 (@record_fields dec_float dec_int jan [open_a] [score_ok] 0%nat
                  open_a score_ok (float_lit "4.5") 9 2100 (float_lit "5.2")
                  2100 eq_refl eq_refl eq_refl eq_refl
                  eq_refl eq_refl eq_refl eq_refl eq_refl)).
Defined.

Lemma well_formed_score_ok (h : tr) :
  List.length (children h) = 4%nat ->
  well_formed_pair dec_float dec_int h score_ok.
Proof.
  intros Lh. split; [exact Lh |]. split; [reflexivity |].
  exists (float_lit "4.5"), 9, 2100, (float_lit "5.2"), (float_lit "0.5").
  repeat split; try (vm_compute; reflexivity).
  vm_compute. discriminate.
Qed.

Lemma parse_well_formed_witness :
  exists rs,
    dec_parse jan (records_table [open_a; score_ok; open_b; score_ok]) [] =
    Return rs
    /\ List.length rs = 2%nat.
Proof.
  destruct (@parse_well_formed dec_float dec_int jan
              (records_table [open_a; score_ok; open_b; score_ok]) []
              [open_a; open_b] [score_ok; score_ok]
              eq_refl eq_refl eq_refl) as (rs & Hrs & Hlen & _).
  - intros [| [| [| i]]] h s Hh Hs; cbn in Hh, Hs; try discriminate;
      injection Hh as <-; injection Hs as <-;
      apply well_formed_score_ok; reflexivity.
  - exists rs. split; [exact Hrs | exact Hlen].
Defined.

(** C2 as stated fails on the code: both pairs below have four and eight
    cells and numeric cells the coercions accept, and both are turned into
    records; the first has 9.04 points out of 9 rounds, the second has -3
    rounds. *)
Lemma parse_breaks_invariant :
  exists r1 r2,
    dec_parse jan (records_table [open_a; score_over; open_b; score_negative])
              [] = Return [r1; r2]
    /\ Pts r1 = float_lit "9.04" /\ Rds r1 = 9
    /\ F64.leb_int (Pts r1) (Rds r1) = false
    /\ Pts r2 = float_lit "0" /\ Rds r2 = -3
    /\ (Rds r2 >? 0) = false.
Proof.
  do 2 eexists. split; [vm_compute; reflexivity |].
  repeat split; vm_compute; reflexivity.
Qed.

Lemma parse_row_shape_witness :
  List.length (children short_header) <> 4%nat
  /\ dec_parse jan (records_table [open_a; score_ok; short_header; score_ok])
               [] = Raise (UnpackTooFew 4 3).
Proof.
  split; [cbn; lia |].
  refine (proj2 (@parse_row_shape dec_float dec_int jan
                   (records_table [open_a; score_ok; short_header; score_ok])
                   [] [open_a; short_header] [score_ok; score_ok] 1%nat
                   short_header score_ok
                   eq_refl eq_refl eq_refl eq_refl eq_refl _) _).
  - left. cbn. lia.
  - intros [| j] Hj; [| lia].
    eexists. vm_compute. reflexivity.
Defined.

(** C6 as stated fails on the code: the offending row is row 0 of the
    first table and row 1 of the second, and what is raised is the same
    exception, which carries no row index. *)
Lemma row_shape_error_without_index :
  nth_error (findAll_tr (records_table [short_header; score_ok;
                                        open_b; score_ok]) TRN_NAME_COLOR) 0
  = Some short_header
  /\ nth_error (findAll_tr (records_table [open_a; score_ok;
                                           short_header; score_ok])
                           TRN_NAME_COLOR) 1
     = Some short_header
  /\ dec_parse jan (records_table [short_header; score_ok; open_b; score_ok])
               [] = Raise (UnpackTooFew 4 3)
  /\ dec_parse jan (records_table [open_a; score_ok; short_header; score_ok])
               [] = Raise (UnpackTooFew 4 3).
Proof. repeat split; vm_compute; reflexivity. Qed.



(** C4. On a table with two header rows and three score rows no record is
    returned, and what is raised is the [TypeError] of dividing one message
    string by the other, not the [RuntimeError] the source spells out. *)
Theorem length_mismatch_raises_type_error :
  List.length (findAll_tr (records_table [open_a; open_b; score_ok; score_ok;
                                          score_ok]) TRN_NAME_COLOR) = 2%nat
  /\ List.length (findAll_tr (records_table [open_a; open_b; score_ok;
                                             score_ok; score_ok])
                             TRN_SCORE_COLOR) = 3%nat
  /\ dec_parse jan (records_table [open_a; open_b; score_ok; score_ok;
                                   score_ok]) [] = Raise TypeError
  /\ fst (dec_scrape (fun _ => results_page [open_a; open_b; score_ok;
                                             score_ok; score_ok])
                     [pstr "u1"]) = Raise TypeError.
Proof. repeat split; vm_compute; reflexivity. Qed.

Lemma no_records_continue_witness :
  text no_records_table = NO_RECORDS_STRING
  /\ scrape_from dec_float dec_int static_post
                 (static_get (fun _ => no_records_page))
                 [pstr "u1"; pstr "u2"] [] start =
     scrape_from dec_float dec_int static_post
                 (static_get (fun _ => no_records_page))
                 [pstr "u2"] []
                 {| world := tt;
                    log := [EvPost LOGIN_URL; EvGet (pstr "u1");
                            EvPrint (pstr "2019-Jan No Records!")] |}.
Proof.
  split; [reflexivity |].
  exact (@no_records_continue dec_float dec_int unit static_post
           (static_get (fun _ => no_records_page)) (pstr "u1") [pstr "u2"] []
           start tt tt no_records_page period_table no_records_table
           eq_refl eq_refl eq_refl eq_refl eq_refl).
Defined.

(** C3. On two periods without records nothing sleeps between the two
    logins; after a period with records the run does sleep. *)
Theorem no_records_skips_sleep :
  dec_scrape (fun _ => no_records_page) [pstr "u1"; pstr "u2"] =
  (Return [],
   {| world := tt;
      log := [EvPost LOGIN_URL; EvGet (pstr "u1");
              EvPrint (pstr "2019-Jan No Records!");
              EvPost LOGIN_URL; EvGet (pstr "u2");
              EvPrint (pstr "2019-Jan No Records!")] |})
  /\ throttled (log (snd (dec_scrape (fun _ => no_records_page)
                                     [pstr "u1"; pstr "u2"]))) = false
  /\ log (snd (dec_scrape (fun _ => results_page [open_a; score_ok])
                          [pstr "u1"; pstr "u2"])) =
     [EvPost LOGIN_URL; EvGet (pstr "u1"); EvPrint (pstr "Scraping 2019-Jan...");
      EvSleep 1;
      EvPost LOGIN_URL; EvGet (pstr "u2"); EvPrint (pstr "Scraping 2019-Jan...");
      EvSleep 1]
  /\ throttled (log (snd (dec_scrape (fun _ => results_page [open_a; score_ok])
                                     [pstr "u1"; pstr "u2"]))) = true.
Proof. repeat split; vm_compute; reflexivity. Qed.

(** * Further properties *)

(** ** The performance table *)

Lemma lookup_In (d : list (pynum * Z)) (x : spec_float) (v : Z) :
  lookup d x = Some v ->
  exists k, In (k, v) d /\ key_eqb x k = true.
Proof.
  induction d as [| [k w] d IH]; cbn [lookup]; [discriminate |].
  destruct (key_eqb x k) eqn:E.
  - intros H; injection H as <-. exists k. split; [left; reflexivity | exact E].
  - intros H. destruct (IH H) as (k' & Hin & Hk').
    exists k'. split; [right; exact Hin | exact Hk'].
Qed.

Lemma lookup_defined (d : list (pynum * Z)) (x : spec_float) (k : pynum) :
  In k (map fst d) -> key_eqb x k = true -> lookup d x <> None.
Proof.
  induction d as [| [k' w] d IH]; cbn [lookup map fst In]; [contradiction |].
  intros [-> | Hin] E.
  - rewrite E; discriminate.
  - destruct (key_eqb x k'); [discriminate | apply IH; assumption].
Qed.

Lemma table_keys :
  map fst PERFORMANCE_TABLE = map table_key (rev (range 101)).
Proof. vm_compute. reflexivity. Qed.

(** X1. The table has 101 entries, whose keys are 1.00 down to 0.00 in
    steps of 0.01; looking up [k/100] gives the value written next to that
    key (no entry hides another); and a float has an entry exactly when it
    equals one of these keys. *)
Theorem table_coverage :
  List.length PERFORMANCE_TABLE = 101%nat
  /\ map fst PERFORMANCE_TABLE = map table_key (rev (range 101))
  /\ (forall k, 0 <= k <= 100 ->
        exists key v,
          nth_error PERFORMANCE_TABLE (Z.to_nat (100 - k)) = Some (key, v)
          /\ key_eqb (hundredth k) key = true
          /\ lookup PERFORMANCE_TABLE (hundredth k) = Some v)
  /\ (forall x, lookup PERFORMANCE_TABLE x <> None <->
                exists k, 0 <= k <= 100 /\ key_eqb x (table_key k) = true).
Proof.
  split; [reflexivity |]. split; [exact table_keys |]. split.
  - intros k Hk.
    assert (Hall : forallb entry_at (range 101) = true)
      by (vm_compute; reflexivity).
    rewrite forallb_forall in Hall.
    assert (Hin : In k (range 101)) by (apply in_range; lia).
    specialize (Hall k Hin). unfold entry_at in Hall.
    destruct (lookup PERFORMANCE_TABLE (hundredth k)) as [v |];
      [| discriminate].
    destruct (nth_error PERFORMANCE_TABLE (Z.to_nat (100 - k)))
      as [[key w] |]; [| discriminate].
    apply andb_true_iff in Hall. destruct Hall as [Hv Hkey].
    apply Z.eqb_eq in Hv. subst w.
    exists key, v. repeat split; assumption || reflexivity.
  - intros x. split.
    + intros H. destruct (lookup PERFORMANCE_TABLE x) as [v |] eqn:E;
        [| contradiction H; reflexivity].
      destruct (lookup_In _ _ E) as (key & Hin & Hkey).
      apply (in_map fst) in Hin. cbn [fst] in Hin.
      rewrite table_keys in Hin. apply in_map_iff in Hin.
      destruct Hin as (k & <- & Hk). apply in_rev in Hk.
      unfold range in Hk. apply in_map_iff in Hk.
      destruct Hk as (n & <- & Hn). apply in_seq in Hn.
      exists (Z.of_nat n). split; [lia | exact Hkey].
    + intros (k & Hk & Hkey).
      apply lookup_defined with (k := table_key k); [| exact Hkey].
      rewrite table_keys. apply in_map, in_rev. rewrite rev_involutive.
      apply in_range. lia.
Qed.

Lemma table_coverage_witness :
  0 <= 78 <= 100
  /\ exists key v,
      nth_error PERFORMANCE_TABLE (Z.to_nat (100 - 78)) = Some (key, v)
      /\ key_eqb (hundredth 78) key = true
      /\ lookup PERFORMANCE_TABLE (hundredth 78) = Some v.
Proof.
  split; [lia |].
  apply (proj1 (proj2 (proj2 table_coverage)) 78). lia.
Defined.

Lemma table_step (k : Z) :
  0 <= k < 100 ->
  exists a b, lookup PERFORMANCE_TABLE (hundredth k) = Some a
              /\ lookup PERFORMANCE_TABLE (hundredth (k + 1)) = Some b
              /\ a < b.
Proof.
  intros Hk.
  assert (Hall : forallb increasing_at (range 100) = true)
    by (vm_compute; reflexivity).
  rewrite forallb_forall in Hall.
  assert (Hin : In k (range 100)) by (apply in_range; lia).
  specialize (Hall k Hin). unfold increasing_at in Hall.
  destruct (lookup PERFORMANCE_TABLE (hundredth k)) as [a |]; [| discriminate].
  destruct (lookup PERFORMANCE_TABLE (hundredth (k + 1))) as [b |];
    [| discriminate].
  exists a, b. repeat split. apply Z.ltb_lt. exact Hall.
Qed.

(** X2. The table is strictly increasing: a larger two-decimal score has a
    strictly larger rating difference. *)
Theorem table_increasing (k k' : Z) :
  0 <= k -> k < k' -> k' <= 100 ->
  exists a b, lookup PERFORMANCE_TABLE (hundredth k) = Some a
              /\ lookup PERFORMANCE_TABLE (hundredth k') = Some b
              /\ a < b.
Proof.
  intros H0 Hlt H100.
  replace k' with (k + 1 + Z.of_nat (Z.to_nat (k' - k - 1))) in * by lia.
  generalize dependent (Z.to_nat (k' - k - 1)). intros n.
  induction n as [| n IH]; intros _ H100.
  - replace (k + 1 + Z.of_nat 0) with (k + 1) in * by lia.
    apply table_step. lia.
  - destruct IH as (a & b & Ha & Hb & Hab); [lia | lia |].
    destruct (table_step (k := k + 1 + Z.of_nat n)) as (b' & c & Hb' & Hc & Hbc);
      [lia |].
    replace (k + 1 + Z.of_nat (S n)) with (k + 1 + Z.of_nat n + 1) by lia.
    exists a, c. repeat split; [exact Ha | exact Hc |].
    rewrite Hb in Hb'. injection Hb' as <-. lia.
Qed.

Lemma table_increasing_witness :
  0 <= 50 /\ 50 < 78 /\ 78 <= 100
  /\ exists a b, lookup PERFORMANCE_TABLE (hundredth 50) = Some a
                 /\ lookup PERFORMANCE_TABLE (hundredth 78) = Some b
                 /\ a < b.
Proof.
  split; [lia |]. split; [lia |]. split; [lia |].
  apply (@table_increasing 50 78); lia.
Defined.

Lemma table_values_bounded (x : spec_float) (v : Z) :
  lookup PERFORMANCE_TABLE x = Some v -> -800 <= v <= 800.
Proof.
  intros H. destruct (lookup_In _ _ H) as (k & Hin & _).
  assert (Hall : forallb (fun kv => (-800 <=? snd kv) && (snd kv <=? 800))
                         PERFORMANCE_TABLE = true)
    by (vm_compute; reflexivity).
  rewrite forallb_forall in Hall. specialize (Hall _ Hin). cbn [snd] in Hall.
  apply andb_true_iff in Hall. destruct Hall as [H1 H2].
  apply Z.leb_le in H1. apply Z.leb_le in H2. lia.
Qed.

(** ** [calc_performance] at its edges *)

(** X3. A performance, when one is returned, lies within 800 points of the
    opponents' average, and the number of rounds was not zero. *)
Theorem performance_within_800 (avg : Z) (pts : pynum) (rds perf : Z) :
  calc_performance avg pts rds = Return perf ->
  avg - 800 <= perf <= avg + 800 /\ rds <> 0.
Proof.
  intros H. destruct (calc_performance_rounds _ _ _ H)
    as (Hrds & sc & off & _ & Hoff & ->).
  split; [| exact Hrds].
  pose proof (table_values_bounded _ Hoff). lia.
Qed.

Lemma performance_within_800_witness :
  calc_performance 2000 (PyInt 7) 9 = Return 2220
  /\ 2000 - 800 <= 2220 <= 2000 + 800 /\ 9 <> 0.
Proof.
  split; [vm_compute; reflexivity |].
  apply (@performance_within_800 2000 (PyInt 7) 9 2220).
  vm_compute; reflexivity.
Defined.

Lemma of_int_finite (n : Z) (b : spec_float) :
  F64.of_int n = Return b ->
  (exists s, b = S754_zero s) \/ (exists s m e, b = S754_finite s m e).
Proof.
  unfold F64.of_int.
  destruct (binary_normalize F64.prec F64.emax n 0 false) as [s | s | | s m e];
    intros H; try discriminate; injection H as <-.
  - left; exists s; reflexivity.
  - right; exists s, m, e; reflexivity.
Qed.

Lemma lookup_nan : lookup PERFORMANCE_TABLE S754_nan = None.
Proof. vm_compute. reflexivity. Qed.

Lemma lookup_infinity (s : bool) :
  lookup PERFORMANCE_TABLE (S754_infinity s) = None.
Proof. destruct s; vm_compute; reflexivity. Qed.

(** X4. Points that are NaN or infinite never give a performance: whatever
    the average and the rounds, [calc_performance] raises, with
    [OverflowError] (rounds too large for a float), [ZeroDivisionError]
    (zero rounds) or [KeyError] carrying the unrounded NaN or infinity. *)
Theorem non_finite_points_raise (avg : Z) (pts : spec_float) (rds : Z) :
  pts = S754_nan \/ (exists s, pts = S754_infinity s) ->
  calc_performance avg (PyFloat pts) rds = Raise OverflowError
  \/ calc_performance avg (PyFloat pts) rds = Raise ZeroDivisionError
  \/ (exists s, calc_performance avg (PyFloat pts) rds =
                Raise (KeyError (S754_infinity s)))
  \/ calc_performance avg (PyFloat pts) rds = Raise (KeyError S754_nan).
Proof.
  intros Hpts. unfold calc_performance, truediv_num, truediv. cbn [rbind].
  destruct (F64.of_int rds) as [e | b] eqn:E; cbn [rbind].
  - left. unfold F64.of_int in E.
    destruct (binary_normalize F64.prec F64.emax rds 0 false);
      try discriminate; injection E as <-; reflexivity.
  - destruct (of_int_finite _ E) as [[s ->] | (s & m & e & ->)].
    + right; left; reflexivity.
    + cbn [rbind]. destruct Hpts as [-> | [s' ->]].
      * right; right; right.
        change (F64.div S754_nan (S754_finite s m e)) with S754_nan.
        change (py_round S754_nan 2) with S754_nan.
        unfold getitem. rewrite lookup_nan. reflexivity.
      * right; right; left. exists (xorb s' s).
        change (F64.div (S754_infinity s') (S754_finite s m e))
          with (S754_infinity (xorb s' s)).
        change (py_round (S754_infinity (xorb s' s)) 2)
          with (S754_infinity (xorb s' s)).
        unfold getitem. rewrite lookup_infinity. reflexivity.
Qed.

Lemma non_finite_points_raise_witness :
  calc_performance 2000 (PyFloat S754_nan) 9 = Raise (KeyError S754_nan).
Proof.
  destruct (@non_finite_points_raise 2000 S754_nan 9 (or_introl eq_refl))
    as [H | [H | [[s H] | H]]];
    try (exfalso; revert H; vm_compute; discriminate).
  exact H.
Defined.

(** X5. Every entry of the table is reached: with [k/100] points in one
    round, [0 <= k <= 100], the performance is the average plus the entry
    of [k/100]. *)
Theorem every_entry_reached (avg k : Z) :
  0 <= k <= 100 ->
  exists off, lookup PERFORMANCE_TABLE (hundredth k) = Some off
              /\ calc_performance avg (PyFloat (hundredth k)) 1 =
                 Return (avg + off).
Proof.
  intros Hk.
  assert (Hall : forallb reached_at (range 101) = true)
    by (vm_compute; reflexivity).
  rewrite forallb_forall in Hall.
  assert (Hin : In k (range 101)) by (apply in_range; lia).
  specialize (Hall k Hin). unfold reached_at in Hall.
  destruct (score (PyFloat (hundredth k)) 1) as [| sc] eqn:Esc;
    [discriminate |].
  destruct (lookup PERFORMANCE_TABLE sc) as [a |] eqn:Ea; [| discriminate].
  destruct (lookup PERFORMANCE_TABLE (hundredth k)) as [b |]; [| discriminate].
  apply Z.eqb_eq in Hall. subst b.
  exists a. split; [reflexivity |].
  apply calc_performance_lookup with (sc := sc); assumption.
Qed.

Lemma every_entry_reached_witness :
  0 <= 78 <= 100
  /\ exists off, lookup PERFORMANCE_TABLE (hundredth 78) = Some off
                 /\ calc_performance 2000 (PyFloat (hundredth 78)) 1 =
                    Return (2000 + off).
Proof.
  split; [lia |]. apply (@every_entry_reached 2000 78). lia.
Defined.

(** ** The periods and their URLs *)




Lemma NoDup_map_in {A B} (f : A -> B) (l : list A) :
  (forall x x', In x l -> In x' l -> f x = f x' -> x = x') ->
  NoDup l -> NoDup (map f l).
Proof.
  intros Hinj H. induction H as [| a l Hnotin _ IH]; cbn [map];
    constructor.
  - intros Hin. apply in_map_iff in Hin. destruct Hin as (x & Hx & Hxl).
    apply Hnotin.
    rewrite <- (Hinj x a (or_intror Hxl) (or_introl eq_refl) Hx). exact Hxl.
  - apply IH. intros x x' Hx Hx'. apply Hinj; right; assumption.
Qed.

Lemma range_NoDup (n : Z) : NoDup (range n).
Proof.
  unfold range. apply NoDup_map_in; [| apply seq_NoDup].
  intros x x' _ _ H. lia.
Qed.

Lemma normalise_inj (y m m' : Z) :
  normalise y m = normalise y m' -> m = m'.
Proof.
  unfold normalise. intros H. injection H as H1 H2.
  pose proof (Z.div_mod (m - 1) 12 ltac:(lia)).
  pose proof (Z.div_mod (m' - 1) 12 ltac:(lia)).
  lia.
Qed.

Lemma periods_NoDup (tz : zone) (now : Z * Z) (months : Z) :
  (forall y m, 0 <= tz y m) -> NoDup (periods tz now months).
Proof.
  intros Htz. rewrite periods_ahead by exact Htz.
  apply NoDup_map_in; [| apply range_NoDup].
  intros x x' _ _ H. apply normalise_inj in H. lia.
Qed.

Lemma periods_month (tz : zone) (now : Z * Z) (months : Z) (p : Z * Z) :
  In p (periods tz now months) -> 1 <= snd p <= 12.
Proof.
  unfold periods. intros H. apply in_map_iff in H.
  destruct H as (n & <- & _).
  destruct (localtime_mktime_cases tz (fst now) (snd now - n)) as [C | C];
    rewrite C; apply normalise_month.
Qed.

Lemma pstr_inj (a b : string) : pstr a = pstr b -> a = b.
Proof.
  unfold pstr. intros H.
  assert (E : list_ascii_of_string a = list_ascii_of_string b).
  { revert H. generalize (list_ascii_of_string a) (list_ascii_of_string b).
    intros l; induction l as [| x l IH]; intros [| x' l'] H; cbn in H;
      try discriminate; [reflexivity |].
    injection H as Hx Hl. f_equal; [| apply IH; exact Hl].
    rewrite <- (ascii_N_embedding x), <- (ascii_N_embedding x'), Hx.
    reflexivity. }
  rewrite <- (string_of_list_ascii_of_string a),
          <- (string_of_list_ascii_of_string b), E.
  reflexivity.
Qed.

Lemma format_d_inj (n n' : Z) : format_d n = format_d n' -> n = n'.
Proof.
  unfold format_d. intros H. apply pstr_inj in H.
  apply DecimalZ.to_int_inj.
  assert (Hn : forall z, NilZero.int_of_string
                           (NilZero.string_of_int (Z.to_int z)) =
                         Some (Z.to_int z)).
  { intros z. apply NilZero.isi; destruct z; cbn; try discriminate;
      intros E; injection E as E;
      exact (DecimalPos.Unsigned.to_uint_nonnil _ E). }
  pose proof (Hn n) as E1. rewrite H, Hn in E1. injection E1 as E1.
  symmetry; exact E1.
Qed.

Lemma format_02d_month (m : Z) :
  1 <= m <= 12 -> format_02d m = [48 + Z.to_N (m / 10); 48 + Z.to_N (m mod 10)]%N.
Proof.
  intros H.
  assert (C : m = 1 \/ m = 2 \/ m = 3 \/ m = 4 \/ m = 5 \/ m = 6 \/ m = 7
              \/ m = 8 \/ m = 9 \/ m = 10 \/ m = 11 \/ m = 12) by lia.
  repeat (destruct C as [-> | C]; [reflexivity |]). subst m. reflexivity.
Qed.

Lemma app_inj_length {A} (l1 l1' l2 l2' : list A) :
  l1 ++ l2 = l1' ++ l2' -> List.length l2 = List.length l2' ->
  l1 = l1' /\ l2 = l2'.
Proof.
  revert l1'. induction l1 as [| a l1 IH]; intros [| a' l1'] H L; cbn in H.
  - split; [reflexivity | exact H].
  - apply (f_equal (@List.length A)) in H. cbn in H.
    rewrite length_app in H. lia.
  - apply (f_equal (@List.length A)) in H. cbn in H.
    rewrite length_app in H. lia.
  - injection H as -> H. destruct (IH _ H L) as [-> ->].
    split; reflexivity.
Qed.

Lemma CALCULATION_URL_inj (id : pystr) (y m y' m' : Z) :
  1 <= m <= 12 -> 1 <= m' <= 12 ->
  CALCULATION_URL id y m = CALCULATION_URL id y' m' ->
  y = y' /\ m = m'.
Proof.
  intros Hm Hm' H. unfold CALCULATION_URL in H.
  apply app_inv_head in H. apply app_inv_head in H. apply app_inv_head in H.
  rewrite !app_assoc in H. apply app_inv_tail in H.
  apply app_inj_length in H.
  2:{ rewrite !format_02d_month by assumption. reflexivity. }
  destruct H as [Hy Hmm]. apply app_inv_tail in Hy. apply format_d_inj in Hy.
  split; [exact Hy |].
  rewrite !format_02d_month in Hmm by assumption.
  pose proof (f_equal (fun l => nth 0 l 0%N) Hmm) as H1.
  pose proof (f_equal (fun l => nth 1 l 0%N) Hmm) as H2.
  cbv beta in H1, H2. cbn [nth] in H1, H2.
  pose proof (Z.div_mod m 10 ltac:(lia)).
  pose proof (Z.div_mod m' 10 ltac:(lia)).
  pose proof (Z.mod_pos_bound m 10 ltac:(lia)).
  pose proof (Z.mod_pos_bound m' 10 ltac:(lia)).
  assert (0 <= m / 10) by (apply Z.div_pos; lia).
  assert (0 <= m' / 10) by (apply Z.div_pos; lia).
  lia.
Qed.

Lemma get_rating_urls_NoDup (tz : zone) (player_id : pystr) (now : Z * Z)
      (months : Z) :
  (forall y m, 0 <= tz y m) ->
  NoDup (get_rating_urls tz player_id now months).
Proof.
  intros Htz. unfold get_rating_urls.
  apply NoDup_map_in; [| apply periods_NoDup; exact Htz].
  intros [y m] [y' m'] Hin Hin' H.
  apply periods_month in Hin. apply periods_month in Hin'. cbn [snd] in *.
  destruct (CALCULATION_URL_inj Hin Hin' H) as [-> ->]. reflexivity.
Qed.

(** X7. In a zone whose clock is never behind its standard time no report
    is requested twice: the periods are pairwise distinct, and so are the
    URLs built from them. *)
Theorem urls_distinct (tz : zone) (player_id : pystr) (now : Z * Z)
        (months : Z) :
  (forall y m, 0 <= tz y m) ->
  NoDup (periods tz now months)
  /\ NoDup (get_rating_urls tz player_id now months).
Proof.
  intros Htz.
  split; [apply periods_NoDup | apply get_rating_urls_NoDup]; exact Htz.
Qed.

Lemma urls_distinct_witness :
  NoDup (periods utc (2019, 1) 6)
  /\ NoDup (get_rating_urls utc (pstr "2805677") (2019, 1) 6).
Proof.
  apply (@urls_distinct utc (pstr "2805677") (2019, 1) 6).
  intros y m. unfold utc. lia.
Defined.

(** ** Cell texts and the period label *)

Lemma replace_char_filter (s : pystr) (c : N) :
  replace s [c] [] = filter (fun x => negb (c =? x)%N) s.
Proof.
  unfold replace. induction s as [| a s IH]; [reflexivity |].
  cbn [replace_from is_prefix filter List.length Nat.sub app].
  destruct (c =? a)%N; cbn [andb negb]; rewrite IH; reflexivity.
Qed.

Lemma replace_empty_In (old s : pystr) (k : nat) (c : N) :
  In c (replace_from old [] k s) -> In c s.
Proof.
  revert k. induction s as [| a s IH]; intros k; cbn [replace_from];
    [intros [] |].
  destruct k as [| k].
  - destruct (is_prefix old (a :: s)); cbn [app].
    + intros H. right. exact (IH _ H).
    + intros [-> | H]; [left; reflexivity | right; exact (IH _ H)].
  - intros H. right. exact (IH _ H).
Qed.

Lemma removelast_In {A} (l : list A) (a : A) : In a (removelast l) -> In a l.
Proof.
  induction l as [| b l IH]; cbn [removelast]; [intros [] |].
  destruct l as [| b' l]; [intros [] |].
  intros [-> | H]; [left; reflexivity | right; exact (IH H)].
Qed.

Lemma strip_nbsp_free (x : pystr) : nbsp_free (strip_nbsp x).
Proof.
  unfold nbsp_free, strip_nbsp. rewrite replace_char_filter.
  intros H. apply filter_In in H. destruct H as [_ H].
  rewrite N.eqb_refl in H. discriminate.
Qed.

(** X8. The period label never contains the line feed U+000A (no other
    character is removed for being a line separator: a carriage return
    stays), and every character of it comes from the text of the first
    table. *)
Theorem period_label_no_line_feed (header : table) :
  ~ In 10%N (period_of header)
  /\ forall c, In c (period_of header) -> In c (text header).
Proof.
  assert (H : forall c, In c (period_of header) ->
                        In c (text header) /\ c <> 10%N).
  { intros c Hc. unfold period_of, drop_last in Hc.
    apply removelast_In in Hc. unfold replace at 1 in Hc.
    apply replace_empty_In in Hc. rewrite replace_char_filter in Hc.
    apply filter_In in Hc. destruct Hc as [Hin Hne].
    split; [exact Hin |]. intros ->. rewrite N.eqb_refl in Hne.
    discriminate. }
  split.
  - intros Hc. destruct (H _ Hc) as [_ Hne]. apply Hne. reflexivity.
  - intros c Hc. exact (proj1 (H _ Hc)).
Qed.

Section ParserMore.

Variable py_float : pystr -> result spec_float.
Variable py_int : pystr -> result Z.

Local Abbreviation loop_body_c := (loop_body py_float py_int).
Local Abbreviation parse_c := (parse py_float py_int).
Local Abbreviation well_formed_pair_c := (well_formed_pair py_float py_int).
Local Abbreviation built_from_c := (built_from py_float py_int).

Lemma built_from_well_formed period h s r :
  built_from_c period h s r -> well_formed_pair_c h s.
Proof.
  intros (Lh & Ls & _ & _ & _ & _ & E2 & E3 & E0 & E6 & Eperf).
  split; [exact Lh |]. split; [exact Ls |].
  destruct (calc_performance_rounds _ _ _ Eperf)
    as (_ & sc & off & Esc & Eoff & _).
  exists (Pts r), (Rds r), (Avg_Opponents r), (Rtg_Change r), sc.
  repeat split; try assumption. rewrite Eoff. discriminate.
Qed.

Lemma built_from_nbsp_free period h s r :
  built_from_c period h s r ->
  Rating_Period r = period
  /\ nbsp_free (Tournament_Name r)
  /\ nbsp_free (City r)
  /\ nbsp_free (Country r).
Proof.
  intros (_ & _ & Ep & En & Ec & Ek & _).
  rewrite En, Ec, Ek. unfold cell.
  repeat split; try exact Ep; apply strip_nbsp_free.
Qed.

Lemma parse_equal_length period records acc out :
  parse_c period records acc = Return out ->
  List.length (findAll_tr records TRN_NAME_COLOR) =
  List.length (findAll_tr records TRN_SCORE_COLOR).
Proof.
  unfold parse.
  destruct (Nat.eqb_spec (List.length (findAll_tr records TRN_NAME_COLOR))
                         (List.length (findAll_tr records TRN_SCORE_COLOR)))
    as [E | E]; cbn [negb]; [intros _; exact E | discriminate].
Qed.

(** X9. When parsing returns, the two row groups had the same length and
    every pair was well formed; exactly one record per header row was
    appended to the accumulator, in row order, each built from its own
    pair. *)
Theorem parse_returns_only_well_formed period records acc out hs ss :
  hs = findAll_tr records TRN_NAME_COLOR ->
  ss = findAll_tr records TRN_SCORE_COLOR ->
  parse_c period records acc = Return out ->
  List.length hs = List.length ss
  /\ exists rs,
      out = acc ++ rs
      /\ List.length rs = List.length hs
      /\ forall i h s,
          nth_error hs i = Some h -> nth_error ss i = Some s ->
          well_formed_pair_c h s
          /\ exists r, nth_error rs i = Some r /\ built_from_c period h s r.
Proof.
  intros -> -> H.
  split; [exact (parse_equal_length _ _ _ H) |].
  destruct (parse_inv _ _ _ _ _ H) as (rs & -> & Hrs).
  exists rs. split; [reflexivity |].
  destruct (@Forall2_seq_nth _ _ _ _ _ Hrs) as [Hlen Hnth].
  split; [exact Hlen |].
  intros i h s Hh Hs.
  assert (Hi : (i < List.length (findAll_tr records TRN_NAME_COLOR))%nat)
    by (apply nth_error_Some; congruence).
  destruct (Hnth i Hi) as (r & Hr & Hbody). cbn [Nat.add] in Hbody.
  destruct (loop_body_inv _ _ _ _ _ _ Hbody) as (h' & s' & Hh' & Hs' & Hb).
  assert (h' = h) by congruence. assert (s' = s) by congruence. subst h' s'.
  split; [exact (built_from_well_formed Hb) |].
  exists r. split; assumption.
Qed.

(** X10. In every record the parser returns, the tournament name, the city
    and the country contain no non-breaking space, and the rating period
    is the label the parser was given. *)
Theorem records_nbsp_free period records acc out :
  parse_c period records acc = Return out ->
  exists rs,
    out = acc ++ rs
    /\ Forall (fun r => Rating_Period r = period
                        /\ nbsp_free (Tournament_Name r)
                        /\ nbsp_free (City r)
                        /\ nbsp_free (Country r)) rs.
Proof.
  intros H. destruct (parse_inv _ _ _ _ _ H) as (rs & -> & Hrs).
  exists rs. split; [reflexivity |]. clear H.
  induction Hrs as [| i r idx rs Hi _ IH]; [constructor |].
  constructor; [| exact IH].
  destruct (loop_body_inv _ _ _ _ _ _ Hi) as (h & s & _ & _ & Hb).
  exact (built_from_nbsp_free Hb).
Qed.

Lemma filter_subsumed {A} (f g : A -> bool) (l : list A) :
  (forall x, f x = true -> g x = true) ->
  filter f (filter g l) = filter f l.
Proof.
  intros Hfg. induction l as [| x l IH]; [reflexivity |].
  cbn [filter]. destruct (g x) eqn:Eg; cbn [filter].
  - rewrite IH. reflexivity.
  - destruct (f x) eqn:Ef; [| exact IH].
    rewrite (Hfg _ Ef) in Eg. discriminate.
Qed.

Lemma findAll_tr_marked (t : table) (text' : pystr) (color : pystr) :
  color = TRN_NAME_COLOR \/ color = TRN_SCORE_COLOR ->
  findAll_tr {| text := text'; trs := filter marked (trs t) |} color =
  findAll_tr t color.
Proof.
  intros Hc. unfold findAll_tr. cbn [trs].
  apply filter_subsumed. intros r Hr. unfold marked.
  destruct (bgcolor r) as [c |]; [| discriminate].
  destruct Hc as [-> | ->]; rewrite Hr; [reflexivity | apply orb_true_r].
Qed.

(** X11. The parser reads nothing but the rows with one of the two
    background colours: dropping every other row of the table and
    changing the table's text leaves its result unchanged. *)
Theorem parse_reads_marked_rows period records text' acc :
  parse_c period {| text := text'; trs := filter marked (trs records) |} acc =
  parse_c period records acc.
Proof.
  unfold parse.
  rewrite (findAll_tr_marked records text' (or_introl eq_refl)).
  rewrite (findAll_tr_marked records text' (or_intror eq_refl)).
  reflexivity.
Qed.

End ParserMore.

(** ** One iteration of the loop over the URLs, case by case *)

Section PipelineMore.

Variable py_float : pystr -> result spec_float.
Variable py_int : pystr -> result Z.
Variable World : Type.
Variable http_post : pystr -> World -> result unit * World.
Variable http_get : pystr -> World -> result (list table) * World.

Local Abbreviation parse_c := (parse py_float py_int).
Local Abbreviation scrape_from_c :=
  (scrape_from py_float py_int http_post http_get).
Local Abbreviation scrape_rating_reports_c :=
  (scrape_rating_reports py_float py_int http_post http_get).
Local Abbreviation main_c := (main py_float py_int http_post http_get).

Lemma built_from_sound period h s r :
  built_from py_float py_int period h s r -> sound_record r.
Proof.
  intros Hb. destruct (built_from_nbsp_free Hb) as (_ & Hn & Hc & Hk).
  destruct Hb as (_ & _ & _ & _ & _ & _ & _ & _ & _ & _ & Eperf).
  destruct (calc_performance_rounds _ _ _ Eperf)
    as (Hrds & sc & off & _ & Hoff & Ep).
  pose proof (table_values_bounded _ Hoff).
  unfold sound_record. repeat split; try assumption; lia.
Qed.

Lemma parse_sound period records acc out :
  parse_c period records acc = Return out ->
  Forall sound_record acc -> Forall sound_record out.
Proof.
  intros H Hacc. destruct (parse_inv _ _ _ _ _ H) as (rs & -> & Hrs).
  apply Forall_app. split; [exact Hacc |]. clear H.
  induction Hrs as [| i r idx rs Hi _ IH]; [constructor |].
  constructor; [| exact IH].
  destruct (loop_body_inv _ _ _ _ _ _ Hi) as (h & s & _ & _ & Hb).
  exact (built_from_sound Hb).
Qed.

Lemma str_eqb_eq (a b : pystr) : str_eqb a b = true -> a = b.
Proof. unfold str_eqb. destruct (list_eq_dec N.eq_dec a b); congruence. Qed.

Lemma str_eqb_false (a b : pystr) : str_eqb a b = false -> a <> b.
Proof. unfold str_eqb. destruct (list_eq_dec N.eq_dec a b); congruence. Qed.

Lemma scrape_step url urls' acc (st : state World) :
  step_of py_float py_int http_post http_get url urls' acc st
          (scrape_from_c (url :: urls') acc st).
Proof.
  cbn [scrape_from]. unfold bind at 1. unfold post.
  destruct (http_post LOGIN_URL (world st)) as [[e | u] w1] eqn:Hpost.
  { apply step_post_fails. exact Hpost. }
  unfold bind at 1. unfold get. cbn [world log].
  destruct (http_get url w1) as [[e | result] w2] eqn:Hget.
  { rewrite <- app_assoc. eapply step_get_fails; eassumption. }
  unfold bind at 1. unfold lift at 1, index.
  destruct (nth_error result 0) as [header |] eqn:H0.
  2:{ rewrite <- app_assoc. eapply step_short_page; try eassumption.
      apply nth_error_None in H0. lia. }
  unfold bind at 1. unfold lift at 1.
  destruct (nth_error result 1) as [records |] eqn:H1.
  2:{ rewrite <- app_assoc. eapply step_short_page; try eassumption.
      apply nth_error_None in H1. lia. }
  destruct (str_eqb (replace (text records) [10%N] []) NO_RECORDS_STRING)
    eqn:Htext.
  - apply str_eqb_eq in Htext.
    unfold bind at 1. unfold print, emit. cbn [world log].
    rewrite <- !app_assoc. eapply step_no_records; eassumption.
  - apply str_eqb_false in Htext.
    unfold bind at 1. unfold print, emit. cbn [world log].
    unfold bind at 1. unfold lift at 1.
    destruct (parse_c (period_of header) records acc) as [e | acc'] eqn:Hparse.
    + rewrite <- !app_assoc. eapply step_parse_fails; eassumption.
    + unfold bind at 1. unfold sleep, emit. cbn [world log].
      rewrite <- !app_assoc. eapply step_records; eassumption.
Qed.

Lemma nth_error_lt A (l : list A) n x :
  nth_error l n = Some x -> (n < List.length l)%nat.
Proof. intros H. apply nth_error_Some. congruence. Qed.

(** Case analysis on the first iteration of a run. *)
Ltac first_step url urls acc st :=
  let S := fresh "S" in
  let r := fresh "r" in
  pose proof (scrape_step url urls acc st) as S;
  set (r := scrape_from_c (url :: urls) acc st) in *; clearbody r;
  destruct S.

Ltac same_post Hp :=
  match goal with
  | H : http_post _ _ = _ |- _ =>
      rewrite Hp in H; first [discriminate H | injection H as <- <-]
  end.

Ltac same_get Hg :=
  match goal with
  | H : http_get _ _ = _ |- _ =>
      rewrite Hg in H; first [discriminate H | injection H as <- <-]
  end.

(** ** Whole runs *)

Lemma scrape_from_blocks urls acc (st : state World) out st' :
  scrape_from_c urls acc st = (Return out, st') ->
  exists evs rs,
    log st' = log st ++ evs
    /\ blocks urls evs
    /\ out = acc ++ rs.
Proof.
  revert acc st. induction urls as [| url urls IH]; intros acc st.
  - cbn [scrape_from]. unfold ret. intros H. injection H as <- <-.
    exists [], []. rewrite !app_nil_r. repeat split. constructor.
  - intros H. pose proof (scrape_step url urls acc st) as S.
    rewrite H in S. inversion S as
        [ | | | u w1 result w2 header records Hp Hg H0 H1 Ht Hrun
          | | u w1 result w2 header records acc' Hp Hg H0 H1 Ht Hparse Hrun ];
      subst.
    + destruct (IH _ _ Hrun) as (evs & rs & Hlog & Hb & ->).
      cbn [log] in Hlog. rewrite <- app_assoc in Hlog.
      eexists; exists rs. split; [exact Hlog |].
      split; [| reflexivity]. cbn [app]. constructor. exact Hb.
    + destruct (IH _ _ Hrun) as (evs & rs & Hlog & Hb & ->).
      cbn [log] in Hlog. rewrite <- app_assoc in Hlog.
      destruct (parse_inv _ _ _ _ _ Hparse) as (rs0 & -> & _).
      eexists; exists (rs0 ++ rs). split; [exact Hlog |].
      split; [| rewrite app_assoc; reflexivity].
      cbn [app]. constructor. exact Hb.
Qed.

Lemma blocks_fetched urls evs : blocks urls evs -> fetched evs = urls.
Proof.
  induction 1 as [| url urls period evs _ IH | url urls period evs _ IH];
    cbn [fetched]; [reflexivity | |]; rewrite IH; reflexivity.
Qed.

(** X12. When the run returns, its events are, for each URL in the order
    given, a login, the fetch of that URL and one printed line, followed by
    a sleep of one second exactly when the period had records. *)
Theorem run_log urls (st : state World) out st' :
  scrape_rating_reports_c urls st = (Return out, st') ->
  exists evs, log st' = log st ++ evs /\ blocks urls evs.
Proof.
  unfold scrape_rating_reports. intros H.
  destruct (scrape_from_blocks _ _ _ H) as (evs & rs & Hlog & Hb & _).
  exists evs. split; assumption.
Qed.

(** X13. Whatever the outcome, the URLs fetched are an initial part of the
    list given, in its order; when the run returns, all of them were
    fetched. *)
Theorem fetched_in_order urls acc (st : state World) :
  exists evs k,
    log (snd (scrape_from_c urls acc st)) = log st ++ evs
    /\ fetched evs = firstn k urls
    /\ (forall out, fst (scrape_from_c urls acc st) = Return out ->
                    fetched evs = urls).
Proof.
  revert acc st. induction urls as [| url urls IH]; intros acc st.
  - exists [], 0%nat. cbn. rewrite app_nil_r. repeat split.
  - pose proof (scrape_step url urls acc st) as S.
    set (r := scrape_from_c (url :: urls) acc st) in *. clearbody r.
    destruct S as
        [ e w1 Hp
        | u w1 e w2 Hp Hg
        | u w1 result w2 Hp Hg Hlen
        | u w1 result w2 header records Hp Hg H0 H1 Ht
        | u w1 result w2 header records e Hp Hg H0 H1 Ht Hparse
        | u w1 result w2 header records acc' Hp Hg H0 H1 Ht Hparse ].
    + exists [EvPost LOGIN_URL], 0%nat. cbn [fst snd log].
      split; [reflexivity |]. split; [reflexivity | discriminate].
    + exists [EvPost LOGIN_URL; EvGet url], 1%nat. cbn [fst snd log].
      split; [reflexivity |]. split; [reflexivity | discriminate].
    + exists [EvPost LOGIN_URL; EvGet url], 1%nat. cbn [fst snd log].
      split; [reflexivity |]. split; [reflexivity | discriminate].
    + match goal with
      | |- context [scrape_from_c urls acc ?st1] =>
          destruct (IH acc st1) as (evs & k & Hlog & Hf & Hall)
      end.
      cbn [log] in Hlog. rewrite <- app_assoc in Hlog.
      eexists; exists (S k). split; [exact Hlog |].
      cbn [app fetched firstn]. split; [rewrite Hf; reflexivity |].
      intros out Hout. rewrite (Hall _ Hout). reflexivity.
    + eexists; exists 1%nat. cbn [log snd fst].
      split; [reflexivity |]. split; [reflexivity | discriminate].
    + match goal with
      | |- context [scrape_from_c urls acc' ?st1] =>
          destruct (IH acc' st1) as (evs & k & Hlog & Hf & Hall)
      end.
      cbn [log] in Hlog. rewrite <- app_assoc in Hlog.
      eexists; exists (S k). split; [exact Hlog |].
      cbn [app fetched firstn]. split; [rewrite Hf; reflexivity |].
      intros out Hout. rewrite (Hall _ Hout). reflexivity.
Qed.

(** X14. A failure of the session stops the run at once: when the login or
    the fetch raises, the run raises the same exception, nothing is
    printed, no later URL is requested, and the records collected so far
    are not returned. *)
Theorem transport_failure_stops url urls' acc (st : state World) :
  (forall e w1,
      http_post LOGIN_URL (world st) = (Raise e, w1) ->
      scrape_from_c (url :: urls') acc st =
      (Raise e, {| world := w1; log := log st ++ [EvPost LOGIN_URL] |}))
  /\ (forall u w1 e w2,
         http_post LOGIN_URL (world st) = (Return u, w1) ->
         http_get url w1 = (Raise e, w2) ->
         scrape_from_c (url :: urls') acc st =
         (Raise e, {| world := w2;
                      log := log st ++ [EvPost LOGIN_URL; EvGet url] |})).
Proof.
  split.
  - intros e w1 Hp. first_step url urls' acc st; same_post Hp. reflexivity.
  - intros u w1 e w2 Hp Hg.
    first_step url urls' acc st; same_post Hp; same_get Hg. reflexivity.
Qed.

(** X15. A page with fewer than two tables of class [contentpaneopen]
    stops the run with [IndexError] before anything is printed. *)
Theorem short_page_raises url urls' acc (st : state World) u w1 result w2 :
  http_post LOGIN_URL (world st) = (Return u, w1) ->
  http_get url w1 = (Return result, w2) ->
  (List.length result < 2)%nat ->
  scrape_from_c (url :: urls') acc st =
  (Raise IndexError,
   {| world := w2; log := log st ++ [EvPost LOGIN_URL; EvGet url] |}).
Proof.
  intros Hp Hg Hlen.
  first_step url urls' acc st; same_post Hp; same_get Hg;
    try reflexivity;
    match goal with
    | H : nth_error result 1 = Some _ |- _ =>
        apply nth_error_lt in H; lia
    end.
Qed.

(** X16. A failure of the parser stops the run: the run raises the
    parser's exception after the line [Scraping ...], without sleeping and
    without requesting any later URL, and the records collected so far are
    not returned. *)
Theorem parse_failure_stops url urls' acc (st : state World)
        u w1 result w2 header records e :
  http_post LOGIN_URL (world st) = (Return u, w1) ->
  http_get url w1 = (Return result, w2) ->
  nth_error result 0 = Some header ->
  nth_error result 1 = Some records ->
  replace (text records) [10%N] [] <> NO_RECORDS_STRING ->
  parse_c (period_of header) records acc = Raise e ->
  scrape_from_c (url :: urls') acc st =
  (Raise e,
   {| world := w2;
      log := log st ++ [EvPost LOGIN_URL; EvGet url;
                        EvPrint (pstr "Scraping " ++ period_of header
                                      ++ pstr "...")] |}).
Proof.
  intros Hp Hg H0 H1 Ht Hparse.
  first_step url urls' acc st; same_post Hp; same_get Hg;
    try (apply nth_error_lt in H1; lia);
    repeat match goal with
           | H : nth_error result _ = Some _ |- _ =>
               first [rewrite H0 in H | rewrite H1 in H]; injection H as <-
           end;
    congruence.
Qed.

Lemma scrape_from_sound urls acc (st : state World) out st' :
  Forall sound_record acc ->
  scrape_from_c urls acc st = (Return out, st') ->
  Forall sound_record out.
Proof.
  revert acc st. induction urls as [| url urls IH]; intros acc st Hacc.
  - cbn [scrape_from]. unfold ret. intros H. injection H as <- _.
    exact Hacc.
  - intros H. pose proof (scrape_step url urls acc st) as S.
    rewrite H in S. inversion S as
        [ | | | u w1 result w2 header records Hp Hg H0 H1 Ht Hrun
          | | u w1 result w2 header records acc' Hp Hg H0 H1 Ht Hparse Hrun ];
      subst.
    + exact (IH _ _ Hacc Hrun).
    + exact (IH _ _ (@parse_sound _ _ _ _ Hparse Hacc) Hrun).
Qed.

(** X17. Every record of a run that returns has a non-zero number of
    rounds, a performance within 800 points of the opponents' average, and
    a name, a city and a country without non-breaking spaces. *)
Theorem run_records_sound urls (st : state World) out st' :
  scrape_rating_reports_c urls st = (Return out, st') ->
  Forall sound_record out.
Proof.
  unfold scrape_rating_reports. apply scrape_from_sound. constructor.
Qed.

End PipelineMore.

(** ** The CSV file *)

Lemma dict_to_list_new_tourn (r : tournament) :
  dict_to_list csv_fields (new_tourn_dict r) = Return (csv_row r).
Proof. reflexivity. Qed.

Lemma opened_app (l l' : list event) :
  opened (l ++ l') = opened l ++ opened l'.
Proof.
  induction l as [| e l IH]; [reflexivity |].
  destruct e; cbn [app opened]; rewrite IH; reflexivity.
Qed.

Section FileFacts.

Variable World : Type.
Variable fs_open : pystr -> World -> result unit * World.
Variable fs_write : list pyval -> World -> result unit * World.
Variable fs_close : World -> result unit * World.

Local Abbreviation write_c := (@write World fs_write).
Local Abbreviation write_rows_c := (@write_rows World fs_write).
Local Abbreviation write_to_csv_c :=
  (@write_to_csv World fs_open fs_write fs_close).

Local Abbreviation accepting_c :=
  (@accepting World fs_open fs_write fs_close).

Lemma write_log row (st : state World) :
  log (snd (write_c row st)) = log st ++ [EvWrite row].
Proof. unfold write. destruct (fs_write row (world st)). reflexivity. Qed.

Lemma write_rows_cons r rest (st : state World) :
  write_rows_c (r :: rest) st =
  match write_c (csv_row r) st with
  | (Raise e, st1) => (Raise e, st1)
  | (Return _, st1) => write_rows_c rest st1
  end.
Proof.
  cbn [write_rows]. unfold bind, writerow, lift.
  rewrite dict_to_list_new_tourn. unfold bind. reflexivity.
Qed.

(** The rows handed to the file by the loop are an initial part of the
    rows of the records, all of them when the loop returns. *)
Lemma write_rows_log tournaments (st : state World) :
  exists k,
    log (snd (write_rows_c tournaments st)) =
    log st ++ map EvWrite (firstn k (map csv_row tournaments))
    /\ (forall u, fst (write_rows_c tournaments st) = Return u ->
                  k = List.length tournaments).
Proof.
  revert st. induction tournaments as [| r rest IH]; intros st.
  - exists 0%nat. cbn. rewrite app_nil_r. split; reflexivity.
  - rewrite write_rows_cons.
    pose proof (write_log (csv_row r) st) as Hw.
    destruct (write_c (csv_row r) st) as [[e | u] st1].
    + exists 1%nat. cbn [fst snd map firstn] in *.
      split; [exact Hw | intros u' Hu; discriminate Hu].
    + cbn [snd] in Hw. destruct (IH st1) as (k & Hlog & Hall).
      exists (S k). cbn [map firstn]. rewrite Hlog, Hw, <- app_assoc.
      split; [reflexivity |].
      intros u' Hu. cbn [List.length]. f_equal. exact (Hall _ Hu).
Qed.

Lemma write_rows_accepted tournaments (st : state World) :
  (forall row w, fst (fs_write row w) = Return tt) ->
  fst (write_rows_c tournaments st) = Return tt.
Proof.
  intros Hw. revert st.
  induction tournaments as [| r rest IH]; intros st; [reflexivity |].
  rewrite write_rows_cons. unfold write at 1.
  pose proof (Hw (csv_row r) (world st)) as E.
  destruct (fs_write (csv_row r) (world st)) as [x w1].
  cbn [fst] in E. subst x. apply IH.
Qed.

(** What [write_to_csv] does once [open] has returned. *)
Lemma write_to_csv_opened player_id tournaments (st : state World) u w1 :
  fs_open (player_id ++ pstr ".csv") (world st) = (Return u, w1) ->
  exists k,
    log (snd (write_to_csv_c player_id tournaments st)) =
    log st ++ EvOpen (player_id ++ pstr ".csv")
        :: map EvWrite (firstn k (header_cells csv_fields
                                  :: map csv_row tournaments))
        ++ [EvClose]
    /\ (forall x, fst (write_to_csv_c player_id tournaments st) = Return x ->
                  k = S (List.length tournaments)).
Proof.
  intros Hopen. unfold write_to_csv, with_open, open_w. rewrite Hopen.
  set (st1 := {| world := w1;
                 log := log st ++ [EvOpen (player_id ++ pstr ".csv")] |}).
  unfold bind, writeheader.
  pose proof (write_log (header_cells csv_fields) st1) as Hw.
  assert (Hclose : forall st2 : state World,
             log (snd (close fs_close st2)) = log st2 ++ [EvClose]).
  { intros st2. unfold close. destruct (fs_close (world st2)). reflexivity. }
  destruct (write_c (header_cells csv_fields) st1) as [[e | x] st2];
    cbn [snd] in Hw.
  - exists 1%nat. pose proof (Hclose st2) as Hc.
    destruct (close fs_close st2) as [[e' | x'] st3]; cbn [fst snd] in *;
      (split; [| discriminate]);
      rewrite Hc, Hw; subst st1; cbn [log firstn map];
      rewrite <- !app_assoc; reflexivity.
  - destruct (write_rows_log tournaments st2) as (k & Hlog & Hall).
    exists (S k).
    destruct (write_rows_c tournaments st2) as [r st3]; cbn [fst snd] in *.
    pose proof (Hclose st3) as Hc.
    destruct (close fs_close st3) as [[e' | x'] st4]; cbn [fst snd] in *.
    + split; [| discriminate].
      rewrite Hc, Hlog, Hw. subst st1. cbn [log firstn map].
      rewrite <- !app_assoc. reflexivity.
    + split.
      * rewrite Hc, Hlog, Hw. subst st1. cbn [log firstn map].
        rewrite <- !app_assoc. reflexivity.
      * intros y Hy. f_equal. exact (Hall _ Hy).
Qed.

Lemma write_to_csv_accepted player_id tournaments (st : state World) :
  accepting_c ->
  fst (write_to_csv_c player_id tournaments st) = Return tt.
Proof.
  intros (Ho & Hw & Hc).
  unfold write_to_csv, with_open, open_w.
  pose proof (Ho (player_id ++ pstr ".csv") (world st)) as E.
  destruct (fs_open (player_id ++ pstr ".csv") (world st)) as [x w1].
  cbn [fst] in E. subst x.
  set (st1 := {| world := w1;
                 log := log st ++ [EvOpen (player_id ++ pstr ".csv")] |}).
  unfold bind, writeheader. unfold write at 1.
  pose proof (Hw (header_cells csv_fields) (world st1)) as E.
  destruct (fs_write (header_cells csv_fields) (world st1)) as [x w2].
  cbn [fst] in E. subst x.
  set (st2 := {| world := w2;
                 log := log st1 ++ [EvWrite (header_cells csv_fields)] |}).
  pose proof (write_rows_accepted tournaments st2 Hw) as E.
  destruct (write_rows_c tournaments st2) as [r st3]. cbn [fst] in E.
  subst r. unfold close.
  pose proof (Hc (world st3)) as E.
  destruct (fs_close (world st3)) as [x w4]. cbn [fst] in E. subst x.
  reflexivity.
Qed.

Lemma write_to_csv_returns player_id tournaments (st st' : state World) x :
  write_to_csv_c player_id tournaments st = (Return x, st') ->
  log st' =
  log st ++ EvOpen (player_id ++ pstr ".csv")
      :: map EvWrite (header_cells csv_fields :: map csv_row tournaments)
      ++ [EvClose].
Proof.
  intros H.
  destruct (fs_open (player_id ++ pstr ".csv") (world st)) as [[e | u] w1]
    eqn:Hopen.
  - unfold write_to_csv, with_open, open_w in H. rewrite Hopen in H.
    discriminate H.
  - destruct (write_to_csv_opened player_id tournaments st Hopen)
      as (k & Hlog & Hall).
    rewrite H in Hlog, Hall. cbn [fst snd] in Hlog, Hall.
    rewrite (Hall x eq_refl) in Hlog. rewrite Hlog.
    cbn [firstn]. rewrite firstn_all2 by (rewrite length_map; lia).
    reflexivity.
Qed.

(** X18. [write_to_csv] opens ['<player_id>.csv'] first; when [open]
    raises, that exception leaves the call and nothing else happens.
    Otherwise the rows handed to the file are an initial part of the header
    (the field names) followed by one row per record, in list order, each
    holding the record's nine values in the order of [csv_fields]; the
    file is closed whatever the outcome, and when the call returns every
    row was handed over. The writer itself never raises: on a file system
    that accepts every operation the call returns. *)
Theorem write_to_csv_rows player_id tournaments (st : state World) :
  (forall e w1,
      fs_open (player_id ++ pstr ".csv") (world st) = (Raise e, w1) ->
      write_to_csv_c player_id tournaments st =
      (Raise e, {| world := w1;
                   log := log st ++ [EvOpen (player_id ++ pstr ".csv")] |}))
  /\ (forall u w1,
         fs_open (player_id ++ pstr ".csv") (world st) = (Return u, w1) ->
         exists k,
           log (snd (write_to_csv_c player_id tournaments st)) =
           log st ++ EvOpen (player_id ++ pstr ".csv")
               :: map EvWrite (firstn k (header_cells csv_fields
                                         :: map csv_row tournaments))
               ++ [EvClose]
           /\ (forall x,
                  fst (write_to_csv_c player_id tournaments st) = Return x ->
                  k = S (List.length tournaments)))
  /\ (accepting_c ->
      fst (write_to_csv_c player_id tournaments st) = Return tt).
Proof.
  split.
  { intros e w1 Hopen. unfold write_to_csv, with_open, open_w.
    rewrite Hopen. reflexivity. }
  split.
  { intros u w1 Hopen. exact (write_to_csv_opened _ _ _ Hopen). }
  apply write_to_csv_accepted.
Qed.

End FileFacts.

(** ** [main] *)

Section MainFacts.

Variable py_float : pystr -> result spec_float.
Variable py_int : pystr -> result Z.
Variable World : Type.
Variable http_post : pystr -> World -> result unit * World.
Variable http_get : pystr -> World -> result (list table) * World.
Variable fs_open : pystr -> World -> result unit * World.
Variable fs_write : list pyval -> World -> result unit * World.
Variable fs_close : World -> result unit * World.

Local Abbreviation scrape_from_c :=
  (scrape_from py_float py_int http_post http_get).
Local Abbreviation scrape_rating_reports_c :=
  (scrape_rating_reports py_float py_int http_post http_get).
Local Abbreviation write_to_csv_c :=
  (@write_to_csv World fs_open fs_write fs_close).
Local Abbreviation main_c :=
  (main py_float py_int http_post http_get fs_open fs_write fs_close).

Lemma main_scrape tz player_id months now (st : state World) :
  main_c tz player_id months now st =
  match scrape_rating_reports_c (get_rating_urls tz player_id now months) st
  with
  | (Raise e, st') => (Raise e, st')
  | (Return out, st') => write_to_csv_c player_id out st'
  end.
Proof. reflexivity. Qed.

Lemma get_rating_urls_length tz player_id now months :
  List.length (get_rating_urls tz player_id now months) = Z.to_nat months.
Proof.
  unfold get_rating_urls, periods, range.
  rewrite !length_map, length_seq. reflexivity.
Qed.

(** The scraping never opens a file. *)
Lemma scrape_from_opened urls acc (st : state World) :
  opened (log (snd (scrape_from_c urls acc st))) = opened (log st).
Proof.
  revert acc st. induction urls as [| url urls IH]; intros acc st;
    [reflexivity |].
  pose proof (scrape_step py_float py_int http_post http_get
                          url urls acc st) as S.
  set (r := scrape_from_c (url :: urls) acc st) in *. clearbody r.
  destruct S; cbn [snd log]; try rewrite IH; cbn [log];
    rewrite opened_app; cbn [opened]; apply app_nil_r.
Qed.

(** X19. With a number of months that is zero or negative, [main]
    requests nothing and prints nothing: it goes straight to the file,
    and when the file system accepts the three operations the run is the
    opening of ['<player_id>.csv'], the write of the header row and the
    closing. *)
Theorem main_no_months tz player_id months now (st : state World) :
  months <= 0 ->
  main_c tz player_id months now st = write_to_csv_c player_id [] st
  /\ forall u w1 u' w2 u'' w3,
      fs_open (player_id ++ pstr ".csv") (world st) = (Return u, w1) ->
      fs_write (header_cells csv_fields) w1 = (Return u', w2) ->
      fs_close w2 = (Return u'', w3) ->
      main_c tz player_id months now st =
      (Return tt,
       {| world := w3;
          log := log st ++ [EvOpen (player_id ++ pstr ".csv");
                            EvWrite (header_cells csv_fields);
                            EvClose] |}).
Proof.
  intros Hm.
  assert (E : main_c tz player_id months now st =
              write_to_csv_c player_id [] st).
  { rewrite main_scrape.
    pose proof (get_rating_urls_length tz player_id now months) as Hlen.
    replace (Z.to_nat months) with 0%nat in Hlen by lia.
    destruct (get_rating_urls tz player_id now months);
      [reflexivity | discriminate Hlen]. }
  split; [exact E |].
  intros u w1 u' w2 u'' w3 Ho Hw Hc. rewrite E.
  unfold write_to_csv, with_open, open_w. rewrite Ho.
  unfold bind, writeheader, write. cbn [world log]. rewrite Hw.
  cbn [write_rows]. unfold ret, close. cbn [world log]. rewrite Hc.
  destruct u'. rewrite <- !app_assoc. reflexivity.
Qed.

(** X20. [main] opens the file only after every period has been scraped:
    when the scraping raises, [main] raises the same exception and no file
    has been opened, so the records of the periods already scraped are
    lost and a file of an earlier run is left as it was; when the scraping
    returns, no file has been opened yet and [main] ends as the writing of
    the records returned does. *)
Theorem main_outcome tz player_id months now (st : state World) :
  (forall e st',
      scrape_rating_reports_c (get_rating_urls tz player_id now months) st =
      (Raise e, st') ->
      main_c tz player_id months now st = (Raise e, st')
      /\ opened (log st') = opened (log st))
  /\ (forall out st',
         scrape_rating_reports_c (get_rating_urls tz player_id now months) st
         = (Return out, st') ->
         main_c tz player_id months now st = write_to_csv_c player_id out st'
         /\ opened (log st') = opened (log st)).
Proof.
  pose proof (scrape_from_opened (get_rating_urls tz player_id now months)
                                 [] st) as Ho.
  rewrite main_scrape. unfold scrape_rating_reports.
  split.
  - intros e st' H. rewrite H in Ho |- *. split; [reflexivity | exact Ho].
  - intros out st' H. rewrite H in Ho |- *. split; [reflexivity | exact Ho].
Qed.

(** X21. A run of [main] that returns has, in every time zone, fetched
    the URLs of [get_rating_urls] in their order, one per month asked for,
    with the events of a scraping that returns, and has then opened
    ['<player_id>.csv'], handed over the header and one row per record in
    the order scraped, and closed the file; every record behind a row has
    a non-zero number of rounds and a performance within 800 points of its
    average. *)
Theorem main_returns_complete_file tz player_id months now
        (st st' : state World) x :
  main_c tz player_id months now st = (Return x, st') ->
  exists evs out,
    log st' =
    log st ++ evs
        ++ EvOpen (player_id ++ pstr ".csv")
        :: map EvWrite (header_cells csv_fields :: map csv_row out)
        ++ [EvClose]
    /\ blocks (get_rating_urls tz player_id now months) evs
    /\ fetched evs = get_rating_urls tz player_id now months
    /\ List.length (fetched evs) = Z.to_nat months
    /\ Forall sound_record out.
Proof.
  rewrite main_scrape.
  destruct (scrape_rating_reports_c (get_rating_urls tz player_id now months)
                                    st)
    as [[e0 | out0] st0] eqn:Hrun; [discriminate |].
  intros H. unfold scrape_rating_reports in Hrun.
  destruct (scrape_from_blocks _ _ _ _ _ _ _ Hrun)
    as (evs & rs & Hlog & Hb & _).
  exists evs, out0.
  rewrite (write_to_csv_returns _ _ _ _ _ _ H), Hlog, <- app_assoc.
  split; [reflexivity |].
  split; [exact Hb |].
  rewrite (blocks_fetched Hb).
  split; [reflexivity |].
  split; [apply get_rating_urls_length |].
  exact (@scrape_from_sound _ _ _ _ _ _ _ _ _ _ (Forall_nil _) Hrun).
Qed.

End MainFacts.


(** * The further properties on concrete pages *)

Lemma parse_returns_only_well_formed_witness :
  exists out,
    dec_parse jan (records_table [open_a; score_ok; open_b; score_ok]) [] =
    Return out
    /\ List.length out = 2%nat.
Proof.
  assert (H : exists out,
             dec_parse jan (records_table [open_a; score_ok; open_b; score_ok])
                       [] = Return out)
    by (eexists; vm_compute; reflexivity).
  destruct H as [out H].
  destruct (@parse_returns_only_well_formed
              dec_float dec_int jan
              (records_table [open_a; score_ok; open_b; score_ok]) [] out
              _ _ eq_refl eq_refl H) as (_ & rs & E & Hlen & _).
  exists out. split; [exact H |]. rewrite E. exact Hlen.
Defined.

Lemma records_nbsp_free_witness :
  exists out,
    dec_parse jan (records_table [open_a; score_ok]) [] = Return out
    /\ Forall (fun r => Rating_Period r = jan
                        /\ nbsp_free (Tournament_Name r)
                        /\ nbsp_free (City r)
                        /\ nbsp_free (Country r)) out.
Proof.
  assert (H : exists out,
             dec_parse jan (records_table [open_a; score_ok]) [] = Return out)
    by (eexists; vm_compute; reflexivity).
  destruct H as [out H].
  destruct (@records_nbsp_free dec_float dec_int jan
              (records_table [open_a; score_ok]) [] out H)
    as (rs & E & Hrs).
  exists out. split; [exact H |]. rewrite E. exact Hrs.
Defined.

Lemma run_log_witness :
  exists evs,
    log (snd (dec_scrape mixed_site [pstr "u1"; pstr "u2"])) = evs
    /\ blocks [pstr "u1"; pstr "u2"] evs.
Proof.
  assert (H : exists out st',
             dec_scrape mixed_site [pstr "u1"; pstr "u2"] = (Return out, st'))
    by (do 2 eexists; vm_compute; reflexivity).
  destruct H as (out & st' & H).
  destruct (@run_log dec_float dec_int unit static_post (static_get mixed_site)
              [pstr "u1"; pstr "u2"] start out st' H) as (evs & Hlog & Hb).
  exists evs. rewrite H. split; [exact Hlog | exact Hb].
Defined.

Lemma transport_failure_stops_witness :
  scrape_from dec_float dec_int failing_post (static_get mixed_site)
              [pstr "u1"; pstr "u2"] [] start =
  (Raise TransportError, {| world := tt; log := [EvPost LOGIN_URL] |})
  /\ scrape_from dec_float dec_int static_post failing_get
                 [pstr "u1"; pstr "u2"] [] start =
     (Raise TransportError,
      {| world := tt; log := [EvPost LOGIN_URL; EvGet (pstr "u1")] |}).
Proof.
  split.
  - exact (proj1 (@transport_failure_stops
                    dec_float dec_int unit failing_post
                    (static_get mixed_site) (pstr "u1") [pstr "u2"] [] start)
                 TransportError tt eq_refl).
  - exact (proj2 (@transport_failure_stops
                    dec_float dec_int unit static_post failing_get
                    (pstr "u1") [pstr "u2"] [] start)
                 tt tt TransportError tt eq_refl eq_refl).
Defined.

Lemma short_page_raises_witness :
  scrape_from dec_float dec_int static_post (static_get (fun _ => short_page))
              [pstr "u1"; pstr "u2"] [] start =
  (Raise IndexError,
   {| world := tt; log := [EvPost LOGIN_URL; EvGet (pstr "u1")] |}).
Proof.
  apply (@short_page_raises dec_float dec_int unit static_post
           (static_get (fun _ => short_page)) (pstr "u1") [pstr "u2"] [] start
           tt tt short_page tt eq_refl eq_refl).
  cbn. lia.
Defined.

Lemma parse_failure_stops_witness :
  scrape_from dec_float dec_int static_post
              (static_get (fun _ => results_page [open_a; score_zero_rounds]))
              [pstr "u1"; pstr "u2"] [] start =
  (Raise ZeroDivisionError,
   {| world := tt;
      log := [EvPost LOGIN_URL; EvGet (pstr "u1");
              EvPrint (pstr "Scraping " ++ period_of period_table
                            ++ pstr "...")] |}).
Proof.
  apply (@parse_failure_stops dec_float dec_int unit static_post
           (static_get (fun _ => results_page [open_a; score_zero_rounds]))
           (pstr "u1") [pstr "u2"] [] start tt tt
           (results_page [open_a; score_zero_rounds]) tt
           period_table (records_table [open_a; score_zero_rounds])
           ZeroDivisionError eq_refl eq_refl eq_refl eq_refl).
  - vm_compute. discriminate.
  - vm_compute. reflexivity.
Defined.

Lemma run_records_sound_witness :
  exists out,
    fst (dec_scrape mixed_site [pstr "u1"; pstr "u2"]) = Return out
    /\ Forall sound_record out.
Proof.
  assert (H : exists out st',
             dec_scrape mixed_site [pstr "u1"; pstr "u2"] = (Return out, st'))
    by (do 2 eexists; vm_compute; reflexivity).
  destruct H as (out & st' & H).
  exists out. split; [rewrite H; reflexivity |].
  exact (@run_records_sound dec_float dec_int unit static_post
           (static_get mixed_site) [pstr "u1"; pstr "u2"] start out st' H).
Defined.

Lemma write_to_csv_rows_witness :
  write_to_csv failing_open static_write static_close (pstr "a/b") [] start =
  (Raise OSError, {| world := tt; log := [EvOpen (pstr "a/b.csv")] |})
  /\ fst (write_to_csv static_open static_write static_close
                       (pstr "2805677") [] start) = Return tt.
Proof.
  split.
  - exact (proj1 (@write_to_csv_rows unit failing_open static_write
                    static_close (pstr "a/b") [] start) OSError tt eq_refl).
  - apply (proj2 (proj2 (@write_to_csv_rows unit static_open static_write
                           static_close (pstr "2805677") [] start))).
    repeat split.
Defined.

Lemma main_no_months_witness :
  0 <= 0
  /\ dec_main utc mixed_site (pstr "2805677") 0 (2019, 1) =
     (Return tt,
      {| world := tt;
         log := [EvOpen (pstr "2805677.csv");
                 EvWrite (header_cells csv_fields); EvClose] |}).
Proof.
  split; [lia |].
  apply (proj2 (@main_no_months dec_float dec_int unit static_post
                  (static_get mixed_site) static_open static_write
                  static_close utc (pstr "2805677") 0 (2019, 1) start
                  ltac:(lia))
               tt tt tt tt tt tt eq_refl eq_refl eq_refl).
Defined.

Lemma main_outcome_witness :
  dec_main utc (fun _ => short_page) (pstr "2805677") 2 (2019, 1) =
  (Raise IndexError,
   {| world := tt;
      log := [EvPost LOGIN_URL;
              EvGet (CALCULATION_URL (pstr "2805677") 2019 1)] |})
  /\ opened (log (snd (dec_main utc (fun _ => short_page) (pstr "2805677") 2
                                (2019, 1)))) = [].
Proof.
  destruct (proj1 (@main_outcome dec_float dec_int unit static_post
                     (static_get (fun _ => short_page)) static_open
                     static_write static_close utc (pstr "2805677") 2
                     (2019, 1) start)
                  IndexError
                  {| world := tt;
                     log := [EvPost LOGIN_URL;
                             EvGet (CALCULATION_URL (pstr "2805677")
                                                    2019 1)] |})
    as [Hmain Hopened].
  - vm_compute. reflexivity.
  - split; [exact Hmain |]. unfold dec_main. rewrite Hmain. exact Hopened.
Defined.

Lemma main_returns_complete_file_witness :
  exists evs out,
    log (snd (dec_main dublin mixed_site (pstr "2805677") 2 (2019, 1))) =
    evs ++ EvOpen (pstr "2805677.csv")
        :: map EvWrite (header_cells csv_fields :: map csv_row out)
        ++ [EvClose]
    /\ fetched evs = [CALCULATION_URL (pstr "2805677") 2018 12;
                      CALCULATION_URL (pstr "2805677") 2018 11]
    /\ Forall sound_record out.
Proof.
  assert (H : exists st',
             dec_main dublin mixed_site (pstr "2805677") 2 (2019, 1) =
             (Return tt, st'))
    by (eexists; vm_compute; reflexivity).
  destruct H as (st' & H).
  destruct (@main_returns_complete_file
              dec_float dec_int unit static_post (static_get mixed_site)
              static_open static_write static_close dublin
              (pstr "2805677") 2 (2019, 1) start st' tt H)
    as (evs & out & Hlog & _ & Hf & _ & Hsound).
  exists evs, out. rewrite H. cbn [snd]. split; [exact Hlog |].
  split; [rewrite Hf; vm_compute; reflexivity | exact Hsound].
Defined.
